(** * ProjectNode geometry and layout (projectdesigner.cpp)

    A shallow embedding of the perimeter-intersection and layout code of
    [datactics::ProjectNode]:

    - [GetCornerPoint], [GetPerimeterPoint]  (projectdesigner.cpp 387-449)
    - [OnLayout]                             (projectdesigner.cpp 301-348)
    - [HitTest]                              (projectdesigner.cpp 280-299)
    - the setters                            (projectdesigner.cpp 226-278)

    Conventions.  A C++ [int] / [wxCoord] is a [Z]; signed overflow is
    undefined in C++, so the statements speak about runs whose integer
    intermediates stay in range.  Integer division is C's truncating
    division, [Z.quot].  A C++ [double] is an IEEE 754 binary64 number, the
    kernel's [float].  The conversion [int(x)] of a double is only defined
    for a finite value whose truncation fits an [int]; it is modelled as a
    partial function, and the functions that use it return an [option]. *)

From Stdlib Require Import ZArith Lia Bool String List.
From Stdlib Require Import PrimFloat FloatOps SpecFloat Uint63.
Import ListNotations.

Local Open Scope bool_scope.
Local Open Scope Z_scope.

(* ===================================================================== *)
(** ** Toolkit value types: wxPoint, wxSize, wxRect, wxIcon, wxFont, wxDC *)
(* ===================================================================== *)

Definition wxCoord := Z.

Record wxPoint : Type := mkPoint { pt_x : wxCoord; pt_y : wxCoord }.
Record wxSize  : Type := mkSize  { sz_x : wxCoord; sz_y : wxCoord }.
Record wxRect  : Type := mkRect
  { rc_x : wxCoord; rc_y : wxCoord; rc_width : wxCoord; rc_height : wxCoord }.

(** [wxPoint::operator+] and [operator-]. *)
Definition wxPoint_add (a b : wxPoint) : wxPoint :=
  mkPoint (pt_x a + pt_x b) (pt_y a + pt_y b).
Definition wxPoint_sub (a b : wxPoint) : wxPoint :=
  mkPoint (pt_x a - pt_x b) (pt_y a - pt_y b).

Declare Scope wx_scope.
Delimit Scope wx_scope with wx.
Infix "+p" := wxPoint_add (at level 50, left associativity) : wx_scope.
Infix "-p" := wxPoint_sub (at level 50, left associativity) : wx_scope.
Local Open Scope wx_scope.

Module wxRect.

(** The default-constructed rectangle [wxRect()]. *)
Definition empty : wxRect := mkRect 0 0 0 0.

Definition GetWidth (r : wxRect) : wxCoord := rc_width r.
Definition GetHeight (r : wxRect) : wxCoord := rc_height r.
Definition GetRight (r : wxRect) : wxCoord := rc_x r + rc_width r - 1.
Definition GetBottom (r : wxRect) : wxCoord := rc_y r + rc_height r - 1.
Definition GetTopLeft (r : wxRect) : wxPoint := mkPoint (rc_x r) (rc_y r).
Definition GetBottomRight (r : wxRect) : wxPoint :=
  mkPoint (GetRight r) (GetBottom r).
Definition GetSize (r : wxRect) : wxSize := mkSize (rc_width r) (rc_height r).

Definition IsEmpty (r : wxRect) : bool :=
  (rc_width r <=? 0) || (rc_height r <=? 0).

(** [wxRect::Inside(pt)]: half-open containment. *)
Definition Inside (r : wxRect) (p : wxPoint) : bool :=
  (rc_x r <=? pt_x p) && (rc_y r <=? pt_y p)
  && (pt_y p - rc_y r <? rc_height r) && (pt_x p - rc_x r <? rc_width r).

(** [wxRect::Deflate(d)], that is [Inflate(-d, -d)]: the margin is taken
    off every side; a side that would become negative collapses to zero
    width around the middle. *)
Definition Deflate (r : wxRect) (d : wxCoord) : wxRect :=
  let '(x, w) :=
    if rc_width r <? 2 * d then (rc_x r + rc_width r ÷ 2, 0)
    else (rc_x r + d, rc_width r - 2 * d) in
  let '(y, h) :=
    if rc_height r <? 2 * d then (rc_y r + rc_height r ÷ 2, 0)
    else (rc_y r + d, rc_height r - 2 * d) in
  mkRect x y w h.

Definition Offset (r : wxRect) (p : wxPoint) : wxRect :=
  mkRect (rc_x r + pt_x p) (rc_y r + pt_y p) (rc_width r) (rc_height r).

End wxRect.

(** A [wxIcon]: whether it holds image data ([Ok()]) and its pixel size. *)
Record wxIcon : Type := mkIcon
  { icon_Ok : bool; icon_GetWidth : Z; icon_GetHeight : Z }.

(** A [wxFont], identified by face name and point size. *)
Record wxFont : Type := mkFont { font_face : string; font_points : Z }.

(** A device context as the layout code uses it: the selected font and the
    toolkit's multi-line text measurement for a font. *)
Record wxDC : Type := mkDC
  { dc_font : wxFont;
    dc_measure : wxFont -> string -> wxCoord * wxCoord }.

Definition dc_SetFont (f : wxFont) (dc : wxDC) : wxDC :=
  mkDC f (dc_measure dc).

(** [dc.GetMultiLineTextExtent(text, &w, &h)]: returns [(w, h)]. *)
Definition dc_GetMultiLineTextExtent (dc : wxDC) (text : string)
  : wxCoord * wxCoord :=
  dc_measure dc (dc_font dc) text.

(* ===================================================================== *)
(** ** C++ doubles *)
(* ===================================================================== *)

Module Double.

(** Implicit conversion [int -> double] (exact on the [int] range). *)
Definition of_int (z : Z) : float :=
  if z <? 0 then PrimFloat.opp (PrimFloat.of_uint63 (Uint63.of_Z (- z)))
  else PrimFloat.of_uint63 (Uint63.of_Z z).

Definition INT_MIN : Z := -2147483648.
Definition INT_MAX : Z := 2147483647.

(** The cast [int(x)]: truncation toward zero.  C++ leaves it undefined
    for NaN, infinities and values whose truncation does not fit. *)
Definition to_int (f : float) : option Z :=
  match Prim2SF f with
  | S754_zero _ => Some 0
  | S754_finite s m e =>
      let a := if 0 <=? e then Z.pos m * 2 ^ e
               else Z.pos m ÷ 2 ^ (- e) in
      let v := if s then - a else a in
      if (INT_MIN <=? v) && (v <=? INT_MAX) then Some v else None
  | S754_infinity _ => None
  | S754_nan => None
  end.

End Double.

(* ===================================================================== *)
(** ** The node *)
(* ===================================================================== *)

(** [GraphNode::Style] (graphctrl.h 499-506); [m_style] is an [int]. *)
Definition Style_Custom : Z := 0.
Definition Style_Rectangle : Z := 1.
Definition Style_Elipse : Z := 2.
Definition Style_Triangle : Z := 3.
Definition Style_Diamond : Z := 4.
Definition Num_Styles : Z := 5.

(** The values [HitTest] returns.  The enumeration is declared in
    projectdesigner.h; only the names matter here. *)
Inductive HitValue : Type :=
| Hit_No
| Hit_Yes
| Hit_Operation
| Hit_Result
| Hit_Image.

(** The state of a [ProjectNode]: the [GraphNode] attributes it reads
    (style, text, font, bounds) and its own members. *)
Record ProjectNode : Type := mkNode
  { m_style : Z;
    m_text : string;
    m_font : wxFont;
    m_bounds : wxRect;
    m_id : string;
    m_result : string;
    m_icon : wxIcon;
    m_borderThickness : Z;
    m_cornerRadius : Z;
    m_divide : Z;
    m_minSize : wxSize;
    m_rcText : wxRect;
    m_rcResult : wxRect;
    m_rcIcon : wxRect }.

Definition GetStyle (n : ProjectNode) : Z := m_style n.
Definition GetText (n : ProjectNode) : string := m_text n.
Definition GetFont (n : ProjectNode) : wxFont := m_font n.
Definition GetResult (n : ProjectNode) : string := m_result n.
Definition GetBounds (n : ProjectNode) : wxRect := m_bounds n.
Definition GetCornerRadius (n : ProjectNode) : Z := m_cornerRadius n.
Definition GetBorderThickness (n : ProjectNode) : Z := m_borderThickness n.

(** Field assignments. *)
Definition set_style (v : Z) (n : ProjectNode) : ProjectNode :=
  mkNode v (m_text n) (m_font n) (m_bounds n) (m_id n) (m_result n)
    (m_icon n) (m_borderThickness n) (m_cornerRadius n) (m_divide n)
    (m_minSize n) (m_rcText n) (m_rcResult n) (m_rcIcon n).
Definition set_text (v : string) (n : ProjectNode) : ProjectNode :=
  mkNode (m_style n) v (m_font n) (m_bounds n) (m_id n) (m_result n)
    (m_icon n) (m_borderThickness n) (m_cornerRadius n) (m_divide n)
    (m_minSize n) (m_rcText n) (m_rcResult n) (m_rcIcon n).
Definition set_font (v : wxFont) (n : ProjectNode) : ProjectNode :=
  mkNode (m_style n) (m_text n) v (m_bounds n) (m_id n) (m_result n)
    (m_icon n) (m_borderThickness n) (m_cornerRadius n) (m_divide n)
    (m_minSize n) (m_rcText n) (m_rcResult n) (m_rcIcon n).
Definition set_bounds (v : wxRect) (n : ProjectNode) : ProjectNode :=
  mkNode (m_style n) (m_text n) (m_font n) v (m_id n) (m_result n)
    (m_icon n) (m_borderThickness n) (m_cornerRadius n) (m_divide n)
    (m_minSize n) (m_rcText n) (m_rcResult n) (m_rcIcon n).
Definition set_id (v : string) (n : ProjectNode) : ProjectNode :=
  mkNode (m_style n) (m_text n) (m_font n) (m_bounds n) v (m_result n)
    (m_icon n) (m_borderThickness n) (m_cornerRadius n) (m_divide n)
    (m_minSize n) (m_rcText n) (m_rcResult n) (m_rcIcon n).
Definition set_result (v : string) (n : ProjectNode) : ProjectNode :=
  mkNode (m_style n) (m_text n) (m_font n) (m_bounds n) (m_id n) v
    (m_icon n) (m_borderThickness n) (m_cornerRadius n) (m_divide n)
    (m_minSize n) (m_rcText n) (m_rcResult n) (m_rcIcon n).
Definition set_icon (v : wxIcon) (n : ProjectNode) : ProjectNode :=
  mkNode (m_style n) (m_text n) (m_font n) (m_bounds n) (m_id n) (m_result n)
    v (m_borderThickness n) (m_cornerRadius n) (m_divide n)
    (m_minSize n) (m_rcText n) (m_rcResult n) (m_rcIcon n).
Definition set_borderThickness (v : Z) (n : ProjectNode) : ProjectNode :=
  mkNode (m_style n) (m_text n) (m_font n) (m_bounds n) (m_id n) (m_result n)
    (m_icon n) v (m_cornerRadius n) (m_divide n)
    (m_minSize n) (m_rcText n) (m_rcResult n) (m_rcIcon n).
Definition set_cornerRadius (v : Z) (n : ProjectNode) : ProjectNode :=
  mkNode (m_style n) (m_text n) (m_font n) (m_bounds n) (m_id n) (m_result n)
    (m_icon n) (m_borderThickness n) v (m_divide n)
    (m_minSize n) (m_rcText n) (m_rcResult n) (m_rcIcon n).
Definition set_divide (v : Z) (n : ProjectNode) : ProjectNode :=
  mkNode (m_style n) (m_text n) (m_font n) (m_bounds n) (m_id n) (m_result n)
    (m_icon n) (m_borderThickness n) (m_cornerRadius n) v
    (m_minSize n) (m_rcText n) (m_rcResult n) (m_rcIcon n).
Definition set_minSize (v : wxSize) (n : ProjectNode) : ProjectNode :=
  mkNode (m_style n) (m_text n) (m_font n) (m_bounds n) (m_id n) (m_result n)
    (m_icon n) (m_borderThickness n) (m_cornerRadius n) (m_divide n)
    v (m_rcText n) (m_rcResult n) (m_rcIcon n).
Definition set_rcText (v : wxRect) (n : ProjectNode) : ProjectNode :=
  mkNode (m_style n) (m_text n) (m_font n) (m_bounds n) (m_id n) (m_result n)
    (m_icon n) (m_borderThickness n) (m_cornerRadius n) (m_divide n)
    (m_minSize n) v (m_rcResult n) (m_rcIcon n).
Definition set_rcResult (v : wxRect) (n : ProjectNode) : ProjectNode :=
  mkNode (m_style n) (m_text n) (m_font n) (m_bounds n) (m_id n) (m_result n)
    (m_icon n) (m_borderThickness n) (m_cornerRadius n) (m_divide n)
    (m_minSize n) (m_rcText n) v (m_rcIcon n).
Definition set_rcIcon (v : wxRect) (n : ProjectNode) : ProjectNode :=
  mkNode (m_style n) (m_text n) (m_font n) (m_bounds n) (m_id n) (m_result n)
    (m_icon n) (m_borderThickness n) (m_cornerRadius n) (m_divide n)
    (m_minSize n) (m_rcText n) (m_rcResult n) v.

(** The node the constructor builds (projectdesigner.cpp 213-219): border
    thickness 6, corner radius 10, divide 0, custom style; given here a text,
    a font and bounds. *)
Definition new_ProjectNode (text : string) (font : wxFont) (bounds : wxRect)
  : ProjectNode :=
  mkNode Style_Custom text font bounds EmptyString EmptyString
    (mkIcon false 0 0) 6 10 0 (mkSize 0 0)
    wxRect.empty wxRect.empty wxRect.empty.

(* ===================================================================== *)
(** ** Perimeter intersection (projectdesigner.cpp 387-449) *)
(* ===================================================================== *)

Local Open Scope float_scope.

(** The argument of [sqrt] in [GetCornerPoint] (lines 392-410), computed
    the way the function computes it. *)
Definition GetCornerPoint_discriminant (centre : wxPoint) (radius : Z)
    (inside outside : wxPoint) : float :=
  let k := inside in
  let pt := outside in
  let radius := (radius + 1)%Z in
  let k := k -p centre in
  let pt := pt -p centre in
  let m := Double.of_int (pt_y pt - pt_y k) in
  let m := m / Double.of_int (pt_x pt - pt_x k) in
  let c := Double.of_int (pt_y pt) - m * Double.of_int (pt_x pt) in
  let r2 := Double.of_int (radius * radius) in
  let m2 := m * m in
  let c2 := c * c in
  (m2 + 1) * r2 - c2.

(** [ProjectNode::GetCornerPoint] (lines 387-418). *)
Definition GetCornerPoint (centre : wxPoint) (radius sign : Z)
    (inside outside : wxPoint) : option wxPoint :=
  let k := inside in
  let pt := outside in
  let radius := (radius + 1)%Z in
  (* translate the line, so that the centre of the circle is at the origin *)
  let k := k -p centre in
  let pt := pt -p centre in
  (* m and c for the line y = m x + c through the points *)
  let m := Double.of_int (pt_y pt - pt_y k) in
  let m := m / Double.of_int (pt_x pt - pt_x k) in
  let c := Double.of_int (pt_y pt) - m * Double.of_int (pt_x pt) in
  let r2 := Double.of_int (radius * radius) in
  let m2 := m * m in
  let c2 := c * c in
  let G := PrimFloat.sqrt ((m2 + 1) * r2 - c2) in
  let x := (Double.of_int sign * G - c * m) / (m2 + 1) in
  let y := (Double.of_int sign * G * m + c) / (m2 + 1) in
  match Double.to_int x, Double.to_int y with
  | Some ix, Some iy => Some (centre +p mkPoint ix iy)
  | _, _ => None
  end.

Local Close Scope float_scope.

Section Perimeter.

(** [GraphNode::GetPerimeterPoint], the base class's perimeter point on the
    plain rectangle.  Its body is in graphctrl.cpp, which is not among the
    sources, so the subclass method is embedded over any such function. *)
Variable GraphNode_GetPerimeterPoint :
  ProjectNode -> wxPoint -> wxPoint -> wxPoint.

(** [ProjectNode::GetPerimeterPoint] (lines 420-449). *)
Definition GetPerimeterPoint (n : ProjectNode) (inside outside : wxPoint)
  : option wxPoint :=
  let pt := GraphNode_GetPerimeterPoint n inside outside in
  let b := GetBounds n in
  let r := m_cornerRadius n + m_borderThickness n ÷ 2 in
  (* deflate so that the corners are the centres of the corner circles *)
  let b := wxRect.Deflate b r in
  (* avoid cases GetCornerPoint won't handle *)
  if wxRect.IsEmpty b || (pt_x inside =? pt_x outside)
     || (pt_y inside =? pt_y outside)
  then Some pt
  (* check if in a corner *)
  else if (pt_x pt <? rc_x b) && (pt_y pt <? rc_y b)
  then GetCornerPoint (wxRect.GetTopLeft b) r (-1) inside outside
  else if (pt_x pt >? wxRect.GetRight b) && (pt_y pt <? rc_y b)
  then GetCornerPoint (mkPoint (wxRect.GetRight b) (rc_y b)) r 1
         inside outside
  else if (pt_x pt <? rc_x b) && (pt_y pt >? wxRect.GetBottom b)
  then GetCornerPoint (mkPoint (rc_x b) (wxRect.GetBottom b)) r (-1)
         inside outside
  else if (pt_x pt >? wxRect.GetRight b) && (pt_y pt >? wxRect.GetBottom b)
  then GetCornerPoint (wxRect.GetBottomRight b) r 1 inside outside
  else Some pt.

End Perimeter.

(** Modelled from the spec: [GraphNode::GetPerimeterPoint] (declared in
    graphctrl.h 604, body not among the sources), the "plain-rectangle
    perimeter point": the segment from [inside] to [outside] is clipped edge
    by edge against the node's bounds, first against the vertical edges and
    then against the horizontal ones.  As in the spec's scenario the right
    and bottom edges are at [x + width] and [y + height].  It serves as the
    concrete base-class function where an example needs one. *)
Definition plain_GetPerimeterPoint (n : ProjectNode)
    (inside outside : wxPoint) : wxPoint :=
  let b := GetBounds n in
  let dx := pt_x outside - pt_x inside in
  let dy := pt_y outside - pt_y inside in
  let left := rc_x b in
  let right := rc_x b + rc_width b in
  let top := rc_y b in
  let bottom := rc_y b + rc_height b in
  let pt := outside in
  let pt :=
    if pt_x pt <? left
    then mkPoint left (pt_y inside + (left - pt_x inside) * dy ÷ dx)
    else if pt_x pt >? right
    then mkPoint right (pt_y inside + (right - pt_x inside) * dy ÷ dx)
    else pt in
  let pt :=
    if pt_y pt <? top
    then mkPoint (pt_x inside + (top - pt_y inside) * dx ÷ dy) top
    else if pt_y pt >? bottom
    then mkPoint (pt_x inside + (bottom - pt_y inside) * dx ÷ dy) bottom
    else pt in
  pt.

(** *** The algorithm as the specification words it *)

Local Open Scope float_scope.

(** The circle solver in closed form, for a circle of radius [R] around
    [centre]: with both points translated by [- centre],
    [m = dy / dx], [c = y1 - m x1], [G = sqrt ((m^2 + 1) R^2 - c^2)],
    [x = (sign G - c m) / (m^2 + 1)], [y = (sign G m + c) / (m^2 + 1)];
    the result is [centre + (int x, int y)]. *)
Definition closed_form_m (centre inside outside : wxPoint) : float :=
  Double.of_int ((pt_y outside - pt_y centre) - (pt_y inside - pt_y centre))
  / Double.of_int ((pt_x outside - pt_x centre) - (pt_x inside - pt_x centre)).

Definition closed_form_c (centre inside outside : wxPoint) : float :=
  Double.of_int (pt_y outside - pt_y centre)
  - closed_form_m centre inside outside
    * Double.of_int (pt_x outside - pt_x centre).

Definition closed_form_G (centre : wxPoint) (R : Z) (inside outside : wxPoint)
  : float :=
  let m := closed_form_m centre inside outside in
  let c := closed_form_c centre inside outside in
  PrimFloat.sqrt ((m * m + 1) * Double.of_int (R ^ 2) - c * c).

Definition closed_form_x (centre : wxPoint) (R sign : Z)
    (inside outside : wxPoint) : float :=
  let m := closed_form_m centre inside outside in
  let c := closed_form_c centre inside outside in
  let G := closed_form_G centre R inside outside in
  (Double.of_int sign * G - c * m) / (m * m + 1).

Definition closed_form_y (centre : wxPoint) (R sign : Z)
    (inside outside : wxPoint) : float :=
  let m := closed_form_m centre inside outside in
  let c := closed_form_c centre inside outside in
  let G := closed_form_G centre R inside outside in
  (Double.of_int sign * G * m + c) / (m * m + 1).

Definition CornerPoint_closed_form (centre : wxPoint) (R sign : Z)
    (inside outside : wxPoint) : option wxPoint :=
  match Double.to_int (closed_form_x centre R sign inside outside),
        Double.to_int (closed_form_y centre R sign inside outside) with
  | Some ix, Some iy =>
      Some (mkPoint (pt_x centre + ix)%Z (pt_y centre + iy)%Z)
  | _, _ => None
  end.

Local Close Scope float_scope.

(** The four corner quadrants of the inner rectangle [b] (spec 4.1, step 4),
    each with the centre of its circle and the root it selects. *)
Inductive Corner : Type := TopLeft | TopRight | BottomLeft | BottomRight.

Definition in_corner (b : wxRect) (c : Corner) (pt : wxPoint) : bool :=
  match c with
  | TopLeft => (pt_x pt <? rc_x b) && (pt_y pt <? rc_y b)
  | TopRight => (pt_x pt >? wxRect.GetRight b) && (pt_y pt <? rc_y b)
  | BottomLeft => (pt_x pt <? rc_x b) && (pt_y pt >? wxRect.GetBottom b)
  | BottomRight =>
      (pt_x pt >? wxRect.GetRight b) && (pt_y pt >? wxRect.GetBottom b)
  end.

Definition corner_centre (b : wxRect) (c : Corner) : wxPoint :=
  match c with
  | TopLeft => mkPoint (rc_x b) (rc_y b)
  | TopRight => mkPoint (wxRect.GetRight b) (rc_y b)
  | BottomLeft => mkPoint (rc_x b) (wxRect.GetBottom b)
  | BottomRight => mkPoint (wxRect.GetRight b) (wxRect.GetBottom b)
  end.

Definition corner_sign (c : Corner) : Z :=
  match c with
  | TopLeft | BottomLeft => -1
  | TopRight | BottomRight => 1
  end.

Definition classify_corner (b : wxRect) (pt : wxPoint) : option Corner :=
  find (fun c => in_corner b c pt)
       [TopLeft; TopRight; BottomLeft; BottomRight].

(** [Intersect] as the specification describes it (4.1, steps 1-4), with the
    deflation margin [margin] and the circle radius [R] left open. *)
Definition Intersect (plain : ProjectNode -> wxPoint -> wxPoint -> wxPoint)
    (margin R : Z) (n : ProjectNode) (inside outside : wxPoint)
  : option wxPoint :=
  let pt := plain n inside outside in
  let b := wxRect.Deflate (GetBounds n) margin in
  if wxRect.IsEmpty b then Some pt
  else if (pt_x inside =? pt_x outside) || (pt_y inside =? pt_y outside)
  then Some pt
  else match classify_corner b pt with
       | Some c =>
           CornerPoint_closed_form (corner_centre b c) R (corner_sign c)
             inside outside
       | None => Some pt
       end.

(** The radius [r = cornerRadius + borderThickness / 2] of a node. *)
Definition corner_circle_radius (n : ProjectNode) : Z :=
  m_cornerRadius n + m_borderThickness n ÷ 2.

(** *** Sample inputs *)

Definition sample_font : wxFont := mkFont "Sans" 10.

(** A freshly constructed node with bounds [rect(0, 0, 100, 60)]. *)
Definition sample_node : ProjectNode :=
  new_ProjectNode "Sort" sample_font (mkRect 0 0 100 60).

(* ===================================================================== *)
(** ** Layout (projectdesigner.cpp 301-348) *)
(* ===================================================================== *)

(** Assignments to single members of a [wxRect]. *)
Definition rc_set_y (v : wxCoord) (r : wxRect) : wxRect :=
  mkRect (rc_x r) v (rc_width r) (rc_height r).
Definition rc_set_width (v : wxCoord) (r : wxRect) : wxRect :=
  mkRect (rc_x r) (rc_y r) v (rc_height r).
Definition rc_set_height (v : wxCoord) (r : wxRect) : wxRect :=
  mkRect (rc_x r) (rc_y r) (rc_width r) v.

Section Layout.

(** Where the toolkit puts the top-left corner of a node's bounds when the
    node is resized (a shape is positioned by its centre); the layout code
    does not depend on it. *)
Variable resized_origin : wxRect -> wxSize -> wxPoint.

(** Modelled from the spec: [GraphNode::SetSize] (graphctrl.h 588, body not
    among the sources).  The node's bounds are "a position + size owned by
    the node"; resizing replaces the size, so that the bounds read back have
    exactly the requested width and height. *)
Definition SetSize (size : wxSize) (n : ProjectNode) : ProjectNode :=
  let o := resized_origin (GetBounds n) size in
  set_bounds (mkRect (pt_x o) (pt_y o) (sz_x size) (sz_y size)) n.

(** [ProjectNode::OnLayout], lines 307-326: the cached rectangles.  A
    rectangle that is empty is measured and placed afresh; the device
    context gets the node's font selected before any measuring. *)
Definition OnLayout_rects (spacing : Z) (dc : wxDC) (n : ProjectNode)
  : wxDC * ProjectNode :=
  let dc :=
    if wxRect.IsEmpty (m_rcText n) || wxRect.IsEmpty (m_rcResult n)
    then dc_SetFont (GetFont n) dc
    else dc in
  let n :=
    if wxRect.IsEmpty (m_rcText n)
    then let '(w, h) := dc_GetMultiLineTextExtent dc (GetText n) in
         set_rcText (mkRect spacing spacing w h) n
    else n in
  let n :=
    if icon_Ok (m_icon n) && wxRect.IsEmpty (m_rcIcon n)
    then set_rcIcon
           (mkRect spacing 0 (icon_GetWidth (m_icon n))
              (icon_GetHeight (m_icon n))) n
    else n in
  let iconHSpace := rc_width (m_rcIcon n) + spacing in
  let n :=
    if wxRect.IsEmpty (m_rcResult n)
    then let '(w, h) := dc_GetMultiLineTextExtent dc (GetResult n) in
         set_rcResult (mkRect (spacing + iconHSpace) 0 w h) n
    else n in
  (dc, n).

(** [ProjectNode::OnLayout], lines 328-347: the minimum size, the growth of
    the bounds, the divide and the vertical centring of icon and result. *)
Definition OnLayout_sizes (spacing : Z) (n : ProjectNode) : ProjectNode :=
  let n :=
    set_minSize
      (mkSize
         (Z.max (wxRect.GetRight (m_rcText n))
                (wxRect.GetRight (m_rcResult n)) + spacing + 1)
         (Z.max (wxRect.GetHeight (m_rcIcon n))
                (wxRect.GetHeight (m_rcResult n))
          + wxRect.GetBottom (m_rcText n) + 2 + 2 * spacing
          - m_borderThickness n)) n in
  let bounds := GetBounds n in
  let '(bounds, n) :=
    if (rc_width bounds <? sz_x (m_minSize n))
       || (rc_height bounds <? sz_y (m_minSize n))
    then
      let bounds :=
        if rc_width bounds <? sz_x (m_minSize n)
        then rc_set_width (sz_x (m_minSize n)) bounds else bounds in
      let bounds :=
        if rc_height bounds <? sz_y (m_minSize n)
        then rc_set_height (sz_y (m_minSize n)) bounds else bounds in
      (bounds, SetSize (wxRect.GetSize bounds) n)
    else (bounds, n) in
  let n :=
    set_divide
      (wxRect.GetBottom (m_rcText n) + 1 + spacing - m_borderThickness n) n in
  let mid := (m_divide n + rc_height bounds) ÷ 2 in
  let n := set_rcIcon
             (rc_set_y (mid - rc_height (m_rcIcon n) ÷ 2) (m_rcIcon n)) n in
  let n := set_rcResult
             (rc_set_y (mid - rc_height (m_rcResult n) ÷ 2) (m_rcResult n)) n in
  n.

(** [ProjectNode::OnLayout] (lines 301-348); the device context is passed
    by reference, so it is returned with the node. *)
Definition OnLayout (dc : wxDC) (n : ProjectNode) : wxDC * ProjectNode :=
  let spacing :=
    m_cornerRadius n + m_borderThickness n ÷ 2
    - (m_cornerRadius n - m_borderThickness n ÷ 2) * 1000000 ÷ 1414214 in
  let '(dc, n) := OnLayout_rects spacing dc n in
  let n := OnLayout_sizes spacing n in
  (dc, n).

(** Modelled from the spec: [GraphNode::Layout] (graphctrl.h 612, body not
    among the sources): "one invocation of the engine", a layout pass with
    the text-measurement capability of a device context. *)
Definition Layout (dc : wxDC) (n : ProjectNode) : ProjectNode :=
  snd (OnLayout dc n).

End Layout.

(** Modelled from the spec: [GraphElement::Refresh] (graphctrl.h 358-362,
    body not among the sources) marks the element's area for repainting;
    it leaves the node's attributes alone. *)
Definition Refresh (n : ProjectNode) : ProjectNode := n.

(** The spacing of a layout pass as the specification gives it. *)
Definition spacing_of (cornerRadius borderThickness : Z) : Z :=
  cornerRadius + borderThickness ÷ 2
  - (cornerRadius - borderThickness ÷ 2) * 1000000 ÷ 1414214.

(** *** What a pass computes, member by member

    The values [OnLayout] leaves in the node, written as functions of the
    node it starts from ([OnLayout_members] below proves them equal). *)

(** The cached rectangle when it is usable, else the fresh one. *)
Definition cached (cache fresh : wxRect) : wxRect :=
  if wxRect.IsEmpty cache then fresh else cache.

(** The rectangles a pass works with, before the vertical centring. *)
Definition pass_spacing (n : ProjectNode) : Z :=
  spacing_of (m_cornerRadius n) (m_borderThickness n).

Definition pass_text (dc : wxDC) (n : ProjectNode) : wxRect :=
  let sp := pass_spacing n in
  let e := dc_measure dc (GetFont n) (GetText n) in
  cached (m_rcText n) (mkRect sp sp (fst e) (snd e)).

Definition pass_icon (n : ProjectNode) : wxRect :=
  if icon_Ok (m_icon n) && wxRect.IsEmpty (m_rcIcon n)
  then mkRect (pass_spacing n) 0
         (icon_GetWidth (m_icon n)) (icon_GetHeight (m_icon n))
  else m_rcIcon n.

Definition pass_result (dc : wxDC) (n : ProjectNode) : wxRect :=
  let sp := pass_spacing n in
  let e := dc_measure dc (GetFont n) (GetResult n) in
  cached (m_rcResult n)
    (mkRect (sp + (rc_width (pass_icon n) + sp)) 0 (fst e) (snd e)).

Definition pass_minSize (dc : wxDC) (n : ProjectNode) : wxSize :=
  let sp := pass_spacing n in
  mkSize
    (Z.max (wxRect.GetRight (pass_text dc n))
           (wxRect.GetRight (pass_result dc n)) + sp + 1)
    (Z.max (wxRect.GetHeight (pass_icon n))
           (wxRect.GetHeight (pass_result dc n))
     + wxRect.GetBottom (pass_text dc n) + 2 + 2 * sp
     - m_borderThickness n).

Definition pass_bounds (resized_origin : wxRect -> wxSize -> wxPoint)
    (dc : wxDC) (n : ProjectNode) : wxRect :=
  let b := GetBounds n in
  let ms := pass_minSize dc n in
  if (rc_width b <? sz_x ms) || (rc_height b <? sz_y ms)
  then
    let size := mkSize (Z.max (rc_width b) (sz_x ms))
                       (Z.max (rc_height b) (sz_y ms)) in
    let o := resized_origin b size in
    mkRect (pt_x o) (pt_y o) (sz_x size) (sz_y size)
  else b.

Definition pass_divide (dc : wxDC) (n : ProjectNode) : Z :=
  wxRect.GetBottom (pass_text dc n) + 1 + pass_spacing n
  - m_borderThickness n.

Definition pass_mid (resized_origin : wxRect -> wxSize -> wxPoint)
    (dc : wxDC) (n : ProjectNode) : Z :=
  (pass_divide dc n + rc_height (pass_bounds resized_origin dc n)) ÷ 2.

(* ===================================================================== *)
(** ** Setters (projectdesigner.cpp 226-278) *)
(* ===================================================================== *)

Section Setters.

(** The base-class setters [GraphNode::SetText] and [GraphNode::SetFont],
    [GraphNode::Layout] and [GraphElement::Refresh] have their bodies in
    graphctrl.cpp, which is not among the sources: the setters are embedded
    over any such operations. *)
Variable GraphNode_SetText : string -> ProjectNode -> ProjectNode.
Variable GraphNode_SetFont : wxFont -> ProjectNode -> ProjectNode.
Variable GraphNode_Layout : ProjectNode -> ProjectNode.
Variable GraphElement_Refresh : ProjectNode -> ProjectNode.

Definition SetText (text : string) (n : ProjectNode) : ProjectNode :=
  let n := set_rcText wxRect.empty n in
  GraphNode_SetText text n.

Definition SetFont (font : wxFont) (n : ProjectNode) : ProjectNode :=
  let n := set_rcText wxRect.empty n in
  let n := set_rcResult wxRect.empty n in
  GraphNode_SetFont font n.

Definition SetId (text : string) (n : ProjectNode) : ProjectNode :=
  set_id text n.

Definition SetResult (text : string) (n : ProjectNode) : ProjectNode :=
  let n := set_result text n in
  let n := set_rcResult wxRect.empty n in
  let n := GraphNode_Layout n in
  GraphElement_Refresh n.

Definition SetIcon (icon : wxIcon) (n : ProjectNode) : ProjectNode :=
  let n := set_icon icon n in
  let n := set_rcIcon wxRect.empty n in
  let n := GraphNode_Layout n in
  GraphElement_Refresh n.

Definition SetBorderThickness (thickness : Z) (n : ProjectNode)
  : ProjectNode :=
  let n := set_borderThickness thickness n in
  let n := set_rcText wxRect.empty n in
  let n := set_rcResult wxRect.empty n in
  let n := set_rcIcon wxRect.empty n in
  let n := GraphNode_Layout n in
  GraphElement_Refresh n.

Definition SetCornerRadius (radius : Z) (n : ProjectNode) : ProjectNode :=
  let n := set_cornerRadius radius n in
  let n := set_rcText wxRect.empty n in
  let n := set_rcResult wxRect.empty n in
  let n := set_rcIcon wxRect.empty n in
  let n := GraphNode_Layout n in
  GraphElement_Refresh n.

End Setters.

(** Whether all three cached rectangles are the empty rectangle. *)
Definition caches_reset (n : ProjectNode) : Prop :=
  m_rcText n = wxRect.empty /\ m_rcResult n = wxRect.empty
  /\ m_rcIcon n = wxRect.empty.

(* ===================================================================== *)
(** ** Hit testing (projectdesigner.cpp 280-299) *)
(* ===================================================================== *)

(** [ProjectNode::HitTest]. *)
Definition HitTest (n : ProjectNode) (pt : wxPoint) : HitValue :=
  let bounds := GetBounds n in
  if negb (wxRect.Inside bounds pt) then Hit_No
  else if GetStyle n =? Style_Custom then
    let ptNode := pt -p wxRect.GetTopLeft bounds in
    if wxRect.Inside (m_rcText n) ptNode then Hit_Operation
    else if wxRect.Inside (m_rcResult n) ptNode then Hit_Result
    else if wxRect.Inside (m_rcIcon n) ptNode then Hit_Image
    else Hit_Yes
  else Hit_Yes.

(** The specification's wording: the regions are tried in a fixed priority
    order and the tag of the first one that contains the point is returned,
    else the generic tag. *)
Fixpoint first_containing (regions : list (wxRect * HitValue))
    (p : wxPoint) (generic : HitValue) : HitValue :=
  match regions with
  | [] => generic
  | (r, tag) :: rest =>
      if wxRect.Inside r p then tag else first_containing rest p generic
  end.

Definition hit_regions (n : ProjectNode) : list (wxRect * HitValue) :=
  [ (m_rcText n, Hit_Operation);
    (m_rcResult n, Hit_Result);
    (m_rcIcon n, Hit_Image) ].

(** *** Sample inputs for layout and hit testing *)

(** A measurer with fixed-pitch glyphs: a text of [k] characters measures
    [k * points] by [2 * points]; the empty text measures [(0, 0)]. *)
Definition sample_measure (f : wxFont) (s : string) : wxCoord * wxCoord :=
  match s with
  | EmptyString => (0, 0)
  | _ => (Z.of_nat (String.length s) * font_points f, 2 * font_points f)
  end.

Definition sample_dc : wxDC := mkDC (mkFont "System" 8) sample_measure.

(** Resizing that keeps the top-left corner in place. *)
Definition keep_origin (b : wxRect) (_ : wxSize) : wxPoint :=
  wxRect.GetTopLeft b.

(** A node as the constructor leaves it, with a result text, an icon of
    16 by 16 pixels and bounds [rect(10, 20, 30, 30)], before any layout. *)
Definition fresh_node : ProjectNode :=
  set_icon (mkIcon true 16 16)
    (set_result "ok"
       (new_ProjectNode "Sort" sample_font (mkRect 10 20 30 30))).

(** [fresh_node] after one layout pass. *)
Definition laid_out_node : ProjectNode :=
  Layout keep_origin sample_dc fresh_node.

(** The same node drawn with a predefined shape instead of custom. *)
Definition rectangle_node : ProjectNode :=
  set_style Style_Rectangle laid_out_node.

(* ===================================================================== *)
(** ** The drawing surface *)
(* ===================================================================== *)

(** A [wxColour]: its components are [unsigned char]s. *)
Record wxColour : Type := mkColour { Red : Z; Green : Z; Blue : Z }.

(** The constructor [wxColour(red, green, blue)] called with [int]s: each
    argument is converted to [unsigned char], that is reduced modulo 256. *)
Definition wxColour_rgb (red green blue : Z) : wxColour :=
  mkColour (red mod 256) (green mod 256) (blue mod 256).

(** The range of an [unsigned char] component. *)
Definition colour_ok (c : wxColour) : Prop :=
  (0 <= Red c <= 255) /\ (0 <= Green c <= 255) /\ (0 <= Blue c <= 255).

(** A pen: [*wxTRANSPARENT_PEN], or a solid pen of a colour and a width
    (a colour passed to [SetPen] converts to a pen of width 1). *)
Inductive wxPen : Type :=
| wxTRANSPARENT_PEN
| wxPen_solid (colour : wxColour) (width : Z).

(** The calls a drawing routine makes on its device context, in order. *)
Inductive DCCall : Type :=
| Call_SetPen (pen : wxPen)
| Call_SetBrush (colour : wxColour)
| Call_SetFont (font : wxFont)
| Call_SetTextForeground (colour : wxColour)
| Call_DrawRectangle (rc : wxRect)
| Call_DrawRoundedRectangle (rc : wxRect) (radius : Z)
| Call_DrawLine (x1 y1 x2 y2 : wxCoord)
| Call_DrawLabel (text : string) (rc : wxRect)
| Call_DrawIcon (icon : wxIcon) (pt : wxPoint).

(** Further [wxRect] members. *)
Definition rc_set_x (v : wxCoord) (r : wxRect) : wxRect :=
  mkRect v (rc_y r) (rc_width r) (rc_height r).

(** [wxRect::Inflate(dx, dy)]; [Deflate(d)] is [Inflate(-d, -d)]. *)
Definition wxRect_Inflate (r : wxRect) (dx dy : wxCoord) : wxRect :=
  let '(x, w) :=
    if rc_width r <? - 2 * dx then (rc_x r + rc_width r ÷ 2, 0)
    else (rc_x r - dx, rc_width r + 2 * dx) in
  let '(y, h) :=
    if rc_height r <? - 2 * dy then (rc_y r + rc_height r ÷ 2, 0)
    else (rc_y r - dy, rc_height r + 2 * dy) in
  mkRect x y w h.

(** [wxRect::SetRight] and [SetBottom] keep the top-left corner. *)
Definition wxRect_SetRight (right : wxCoord) (r : wxRect) : wxRect :=
  rc_set_width (right - rc_x r + 1) r.
Definition wxRect_SetBottom (bottom : wxCoord) (r : wxRect) : wxRect :=
  rc_set_height (bottom - rc_y r + 1) r.

(** What a sequence of calls paints: each rectangle drawn, with the brush
    selected at that moment ([b] at the start). *)
Fixpoint painted (b : option wxColour) (calls : list DCCall)
  : list (wxRect * option wxColour) :=
  match calls with
  | [] => []
  | Call_SetBrush c :: rest => painted (Some c) rest
  | Call_DrawRectangle r :: rest => (r, b) :: painted b rest
  | _ :: rest => painted b rest
  end.

(* ===================================================================== *)
(** ** ProjectDesigner (projectdesigner.cpp 26-205) *)
(* ===================================================================== *)

(** The members of a [ProjectDesigner], and a count of the calls to
    [GetCanvas()->Refresh()]. *)
Record ProjectDesigner : Type := mkDesigner
  { m_background : wxColour * wxColour;
    m_showGrid : bool;
    canvas_refreshes : nat }.

Definition IsGridShown (pd : ProjectDesigner) : bool := m_showGrid pd.

(** [ProjectDesigner::SetBackgroundGradient] (lines 68-73). *)
Definition SetBackgroundGradient (from to : wxColour) (pd : ProjectDesigner)
  : ProjectDesigner :=
  mkDesigner (from, to) (m_showGrid pd) (canvas_refreshes pd).

(** [ProjectDesigner::SetShowGrid] (lines 75-81). *)
Definition SetShowGrid (show : bool) (pd : ProjectDesigner)
  : ProjectDesigner :=
  if negb (Bool.eqb show (m_showGrid pd))
  then mkDesigner (m_background pd) show (S (canvas_refreshes pd))
  else pd.

(** What [DrawCanvasBackground] reads from the control, its graph and the
    device context: the zoom percentage ([GetZoom()]), the graph's grid
    spacing ([GetGraph()->GetGridSpacing()]), the foreground colour, the
    clipping box in device coordinates and the device-to-logical
    conversions of the prepared context. *)
Record CanvasEnv : Type := mkCanvasEnv
  { GetZoom : Z;
    GetGridSpacing : Z;
    GetForegroundColour : wxColour;
    GetClippingBox : wxRect;
    DeviceToLogicalX : wxCoord -> wxCoord;
    DeviceToLogicalY : wxCoord -> wxCoord }.

(** Failure is running out of fuel in one of the [while] loops. *)
Definition bind_opt {A B : Type} (o : option A) (k : A -> option B)
  : option B :=
  match o with
  | Some a => k a
  | None => None
  end.

Notation "x <- e ;; k" := (bind_opt e (fun x => k))
  (at level 61, e at next level, right associativity).
Notation "' p <- e ;; k" := (bind_opt e (fun p => k))
  (at level 61, p pattern, e at next level, right associativity).

(** Lines 106-117: the clip rectangle in logical coordinates. *)
Definition logical_clip (env : CanvasEnv) : wxRect :=
  let rcClip := GetClippingBox env in
  let rcClip := wxRect_Inflate rcClip 1 1 in
  let rc := wxRect.empty in
  let rc := rc_set_x (DeviceToLogicalX env (rc_x rcClip)) rc in
  let rc := rc_set_y (DeviceToLogicalY env (rc_y rcClip)) rc in
  let rc := wxRect_SetRight
              (DeviceToLogicalX env (wxRect.GetRight rcClip)) rc in
  let rc := wxRect_SetBottom
              (DeviceToLogicalY env (wxRect.GetBottom rcClip)) rc in
  rc.

(** Lines 126-129: [while (zoom <= 50) { factor *= 2; zoom *= 2; }]. *)
Fixpoint zoom_loop (fuel : nat) (factor zoom : Z) : option (Z * Z) :=
  if zoom <=? 50
  then match fuel with
       | O => None
       | S fuel => zoom_loop fuel (factor * 2) (zoom * 2)
       end
  else Some (factor, zoom).

(** Lines 119-137: the stripe factor and the stripe spacing. *)
Definition grid_factor_spacing (fuel : nat) (pd : ProjectDesigner)
    (env : CanvasEnv) : option (Z * Z) :=
  if IsGridShown pd then
    let factor := 5 in
    let zoom := GetZoom env in
    ' (factor, zoom) <-
      (if negb (zoom =? 0) then zoom_loop fuel factor zoom
       else Some (factor, zoom)) ;;
    Some (factor, factor * GetGridSpacing env)
  else
    Some (1, GetGridSpacing env).

(** Lines 156-160: the colour of the stripe that starts at [x]. *)
Definition stripe_rgb (spacing factor : Z) (c0 c1 : wxColour) (x : wxCoord)
  : Z * Z * Z :=
  let i := Z.min (Z.abs (x ÷ spacing) * factor) 255 in
  let red := Red c0 + (Red c1 - Red c0) * i ÷ 255 in
  let green := Green c0 + (Green c1 - Green c0) * i ÷ 255 in
  let blue := Blue c0 + (Blue c1 - Blue c0) * i ÷ 255 in
  (red, green, blue).

(** The stripe colour as a [wxColour]. *)
Definition stripe_colour (spacing factor : Z) (c0 c1 : wxColour)
    (x : wxCoord) : wxColour :=
  let '(red, green, blue) := stripe_rgb spacing factor c0 c1 x in
  wxColour_rgb red green blue.

(** [ProjectDesigner::Init] (lines 51-62): both ends of the gradient are
    the control's background colour and the grid is shown. *)
Definition Init (background : wxColour) : ProjectDesigner :=
  mkDesigner (background, background) true 0.

(** Lines 154-171: the loop that paints the stripes.  [last] holds
    [lastred], [lastgreen], [lastblue]. *)
Fixpoint stripe_loop (fuel : nat) (spacing factor : Z) (c0 c1 : wxColour)
    (right : wxCoord) (rc : wxRect) (last : Z * Z * Z)
  : option (list DCCall) :=
  if rc_x rc <? right
  then match fuel with
       | O => None
       | S fuel =>
           let '(red, green, blue) :=
             stripe_rgb spacing factor c0 c1 (rc_x rc) in
           let '(lastred, lastgreen, lastblue) := last in
           let changed :=
             negb (red =? lastred) || negb (green =? lastgreen)
             || negb (blue =? lastblue) in
           let brush :=
             if changed then [Call_SetBrush (wxColour_rgb red green blue)]
             else [] in
           let last := if changed then (red, green, blue) else last in
           rest <- stripe_loop fuel spacing factor c0 c1 right
                     (rc_set_x (rc_x rc + spacing) rc) last ;;
           Some (brush ++ Call_DrawRectangle rc :: rest)
       end
  else Some [].

(** Lines 186-189 and 200-203: the loops that draw the grid lines; [line]
    makes the call for one position. *)
Fixpoint line_loop (fuel : nat) (spacing : Z) (line : wxCoord -> DCCall)
    (v1 v2 : wxCoord) : option (list DCCall) :=
  if v1 <=? v2
  then match fuel with
       | O => None
       | S fuel =>
           rest <- line_loop fuel spacing line (v1 + spacing) v2 ;;
           Some (line v1 :: rest)
       end
  else Some [].

(** Lines 173-204: the grid. *)
Definition grid_lines (fuel : nat) (spacing : Z) (fg : wxColour)
    (rcClip : wxRect) : option (list DCCall) :=
  let x1 := rc_x rcClip - Z.rem (rc_x rcClip) spacing in
  let x1 := if rc_x rcClip <? 0 then x1 - spacing else x1 in
  let x2 := wxRect.GetRight rcClip - Z.rem (wxRect.GetRight rcClip) spacing in
  let x2 := if wxRect.GetRight rcClip >? 0 then x2 + spacing else x2 in
  let y1 := rc_y rcClip in
  let y2 := wxRect.GetBottom rcClip in
  vertical <- line_loop fuel spacing
                (fun x1 => Call_DrawLine x1 y1 x1 y2) x1 x2 ;;
  let x1 := rc_x rcClip in
  let x2 := wxRect.GetRight rcClip in
  let y1 := rc_y rcClip - Z.rem (rc_y rcClip) spacing in
  let y1 := if rc_y rcClip <? 0 then y1 - spacing else y1 in
  let y2 :=
    wxRect.GetBottom rcClip - Z.rem (wxRect.GetBottom rcClip) spacing in
  let y2 := if wxRect.GetBottom rcClip >? 0 then y2 + spacing else y2 in
  horizontal <- line_loop fuel spacing
                  (fun y1 => Call_DrawLine x1 y1 x2 y1) y1 y2 ;;
  Some (Call_SetPen (wxPen_solid fg 1) :: vertical ++ horizontal).

(** Lines 139-142: the first stripe. *)
Definition first_stripe (spacing : Z) (rcClip : wxRect) : wxRect :=
  let rc := rcClip in
  let rc := rc_set_x (rc_x rc - Z.rem (rc_x rc) spacing) rc in
  let rc := if rc_x rcClip <? 0 then rc_set_x (rc_x rc - spacing) rc
            else rc in
  rc_set_width (spacing + 1) rc.

(** [ProjectDesigner::DrawCanvasBackground] (lines 101-205): the calls made
    on the device context. *)
Definition DrawCanvasBackground (fuel : nat) (pd : ProjectDesigner)
    (env : CanvasEnv) : option (list DCCall) :=
  let rcClip := logical_clip env in
  ' (factor, spacing) <- grid_factor_spacing fuel pd env ;;
  let rc := first_stripe spacing rcClip in
  let last := (-1, -1, -1) in
  let '(c0, c1) := m_background pd in
  stripes <- stripe_loop fuel spacing factor c0 c1
               (wxRect.GetRight rcClip) rc last ;;
  grid <- (if IsGridShown pd
           then grid_lines fuel spacing (GetForegroundColour env) rcClip
           else Some []) ;;
  Some (Call_SetPen wxTRANSPARENT_PEN :: stripes ++ grid).

(** The outcome of [OnCanvasBackground] (lines 83-99): the background is
    painted when the control has a graph, else the event is skipped. *)
Inductive EraseOutcome : Type :=
| Erase_painted (calls : list DCCall)
| Erase_skipped.

(** [ProjectDesigner::OnCanvasBackground]; [graph_env] is the environment
    when [GetGraph()] is not null.  The device context of the event and a
    client context of the canvas are painted the same way. *)
Definition OnCanvasBackground (fuel : nat) (pd : ProjectDesigner)
    (graph_env : option CanvasEnv) : option EraseOutcome :=
  match graph_env with
  | Some env =>
      calls <- DrawCanvasBackground fuel pd env ;;
      Some (Erase_painted calls)
  | None => Some Erase_skipped
  end.

(* ===================================================================== *)
(** ** Drawing a node (projectdesigner.cpp 350-385) *)
(* ===================================================================== *)

(** The colours of a graph element ([GetColour], [GetBackgroundColour],
    graphctrl.h 281-283) and of a node's text ([GetTextColour], 524). *)
Record NodeColours : Type := mkNodeColours
  { GetColour : wxColour;
    GetBackgroundColour : wxColour;
    GetTextColour : wxColour }.

Definition GetIcon (n : ProjectNode) : wxIcon := m_icon n.

Section Draw.

(** [GraphNode::OnDraw], the drawing of the predefined styles; its body is
    in graphctrl.cpp, which is not among the sources. *)
Variable GraphNode_OnDraw : NodeColours -> ProjectNode -> list DCCall.

(** [ProjectNode::OnDraw]: the calls made on the device context. *)
Definition OnDraw (col : NodeColours) (n : ProjectNode) : list DCCall :=
  if GetStyle n =? Style_Custom then
    let bounds := GetBounds n in
    let rc := bounds in
    let rc := wxRect.Deflate rc (m_borderThickness n ÷ 2) in
    let outline := rc in
    let rc := rc_set_height (m_divide n) rc in
    let band := rc in
    let patch :=
      if m_cornerRadius n >? m_borderThickness n
      then
        let rc := rc_set_y (rc_y rc + m_cornerRadius n) rc in
        let rc := rc_set_height (rc_height rc - m_cornerRadius n) rc in
        [Call_DrawRectangle rc]
      else [] in
    [ Call_SetPen (wxPen_solid (GetColour col) (m_borderThickness n));
      Call_SetBrush (GetBackgroundColour col);
      Call_SetFont (GetFont n);
      Call_SetTextForeground (GetTextColour col);
      Call_DrawRoundedRectangle outline (GetCornerRadius n);
      Call_SetBrush (GetColour col);
      Call_DrawRoundedRectangle band (GetCornerRadius n) ]
    ++ patch
    ++ [ Call_DrawLabel (GetText n)
           (wxRect.Offset (m_rcText n) (wxRect.GetTopLeft bounds));
         Call_DrawLabel (GetResult n)
           (wxRect.Offset (m_rcResult n) (wxRect.GetTopLeft bounds)) ]
    ++ (if icon_Ok (GetIcon n)
        then [Call_DrawIcon (GetIcon n)
                (wxRect.GetTopLeft bounds +p wxRect.GetTopLeft (m_rcIcon n))]
        else [])
  else
    GraphNode_OnDraw col n.

End Draw.

(** *** Moving a node, and sample inputs *)

(** The node with its bounds moved by [d] (the size kept). *)
Definition moved (d : wxPoint) (n : ProjectNode) : ProjectNode :=
  set_bounds (wxRect.Offset (GetBounds n) d) n.

Definition sample_designer : ProjectDesigner :=
  mkDesigner (mkColour 255 255 255, mkColour 0 64 128) true 0.

(** Zoom 100 percent, grid spacing 10, clipping box [rect(1,1,98,58)] and
    device coordinates equal to logical ones. *)
Definition sample_env : CanvasEnv :=
  mkCanvasEnv 100 10 (mkColour 0 0 0) (mkRect 1 1 98 58)
    (fun x => x) (fun y => y).

Definition sample_colours : NodeColours :=
  mkNodeColours (mkColour 0 0 128) (mkColour 255 255 255) (mkColour 0 0 0).

(** *** Reading a list of calls *)

(** The colours passed to [SetBrush], in order. *)
Fixpoint brushes (calls : list DCCall) : list wxColour :=
  match calls with
  | [] => []
  | Call_SetBrush c :: rest => c :: brushes rest
  | _ :: rest => brushes rest
  end.

(** The labels drawn, in order: text and rectangle. *)
Fixpoint labels (calls : list DCCall) : list (string * wxRect) :=
  match calls with
  | [] => []
  | Call_DrawLabel t r :: rest => (t, r) :: labels rest
  | _ :: rest => labels rest
  end.

(** The rounded rectangles drawn, in order: rectangle and radius. *)
Fixpoint rounded (calls : list DCCall) : list (wxRect * Z) :=
  match calls with
  | [] => []
  | Call_DrawRoundedRectangle r radius :: rest => (r, radius) :: rounded rest
  | _ :: rest => rounded rest
  end.

(** A call with its coordinates moved by [d]. *)
Definition DCCall_Offset (d : wxPoint) (c : DCCall) : DCCall :=
  match c with
  | Call_DrawRectangle r => Call_DrawRectangle (wxRect.Offset r d)
  | Call_DrawRoundedRectangle r radius =>
      Call_DrawRoundedRectangle (wxRect.Offset r d) radius
  | Call_DrawLine x1 y1 x2 y2 =>
      Call_DrawLine (x1 + pt_x d) (y1 + pt_y d) (x2 + pt_x d) (y2 + pt_y d)
  | Call_DrawLabel t r => Call_DrawLabel t (wxRect.Offset r d)
  | Call_DrawIcon i p => Call_DrawIcon i (p +p d)
  | c => c
  end.

(* ===================================================================== *)
(** ** Properties of the perimeter intersection *)
(* ===================================================================== *)

(** Boolean tests to arithmetic facts. *)
Ltac bool_to_Z :=
  repeat match goal with
  | H : _ && _ = true |- _ => apply andb_true_iff in H; destruct H
  | H : _ || _ = false |- _ => apply orb_false_iff in H; destruct H
  | H : (_ <? _) = true |- _ => apply Z.ltb_lt in H
  | H : (_ <? _) = false |- _ => apply Z.ltb_ge in H
  | H : (_ <=? _) = true |- _ => apply Z.leb_le in H
  | H : (_ <=? _) = false |- _ => apply Z.leb_gt in H
  | H : (_ >? _) = true |- _ => rewrite Z.gtb_ltb in H
  | H : (_ >? _) = false |- _ => rewrite Z.gtb_ltb in H
  | H : (_ =? _) = true |- _ => apply Z.eqb_eq in H
  | H : (_ =? _) = false |- _ => apply Z.eqb_neq in H
  end.

(** [GetCornerPoint] takes the square root of [GetCornerPoint_discriminant]. *)
Lemma GetCornerPoint_sqrt_argument :
  forall centre radius sign inside outside,
    GetCornerPoint centre radius sign inside outside =
    (let k := inside -p centre in
     let pt := outside -p centre in
     let m := (Double.of_int (pt_y pt - pt_y k)
               / Double.of_int (pt_x pt - pt_x k))%float in
     let c := (Double.of_int (pt_y pt) - m * Double.of_int (pt_x pt))%float in
     let G := PrimFloat.sqrt
                (GetCornerPoint_discriminant centre radius inside outside) in
     let x := ((Double.of_int sign * G - c * m) / (m * m + 1))%float in
     let y := ((Double.of_int sign * G * m + c) / (m * m + 1))%float in
     match Double.to_int x, Double.to_int y with
     | Some ix, Some iy => Some (centre +p mkPoint ix iy)
     | _, _ => None
     end).
Proof. reflexivity. Qed.

(** The code's solver is the closed form for the circle of radius
    [radius + 1]. *)
Lemma GetCornerPoint_is_closed_form :
  forall centre radius sign inside outside,
    GetCornerPoint centre radius sign inside outside =
    CornerPoint_closed_form centre (radius + 1) sign inside outside.
Proof.
  intros centre radius sign inside outside.
  unfold GetCornerPoint, CornerPoint_closed_form, closed_form_x,
    closed_form_y, closed_form_G, closed_form_c, closed_form_m.
  cbn [wxPoint_sub wxPoint_add pt_x pt_y].
  rewrite Z.pow_2_r.
  reflexivity.
Qed.

(** A non-empty rectangle has its right and bottom edges not before its
    left and top edges, so the four corner tests exclude one another. *)
Lemma nonempty_edges :
  forall b, wxRect.IsEmpty b = false ->
    rc_x b <= wxRect.GetRight b /\ rc_y b <= wxRect.GetBottom b.
Proof.
  intros b H. unfold wxRect.IsEmpty in H.
  unfold wxRect.GetRight, wxRect.GetBottom.
  bool_to_Z. lia.
Qed.

Lemma in_corner_exclusive :
  forall b pt c c', wxRect.IsEmpty b = false ->
    in_corner b c pt = true -> in_corner b c' pt = true -> c = c'.
Proof.
  intros b pt c c' Hb Hc Hc'.
  destruct (nonempty_edges b Hb) as [Hx Hy].
  destruct c, c'; try reflexivity; cbn [in_corner] in Hc, Hc';
    bool_to_Z; lia.
Qed.

Lemma classify_corner_in_corner :
  forall b pt c, wxRect.IsEmpty b = false ->
    in_corner b c pt = true -> classify_corner b pt = Some c.
Proof.
  intros b pt c Hb Hc. unfold classify_corner.
  destruct (find (fun c0 => in_corner b c0 pt)
              [TopLeft; TopRight; BottomLeft; BottomRight]) as [c'|] eqn:F.
  - apply find_some in F. destruct F as [_ F].
    f_equal. eapply in_corner_exclusive; eauto.
  - exfalso.
    assert (In c [TopLeft; TopRight; BottomLeft; BottomRight])
      by (destruct c; simpl; tauto).
    pose proof (find_none _ _ F c H) as N. cbv beta in N. congruence.
Qed.

(** The subclass method, case by case, in the specification's terms. *)
Lemma GetPerimeterPoint_dispatch :
  forall base n inside outside,
    GetPerimeterPoint base n inside outside =
    let pt := base n inside outside in
    let r := corner_circle_radius n in
    let b := wxRect.Deflate (GetBounds n) r in
    if wxRect.IsEmpty b || (pt_x inside =? pt_x outside)
       || (pt_y inside =? pt_y outside)
    then Some pt
    else match classify_corner b pt with
         | Some c =>
             GetCornerPoint (corner_centre b c) r (corner_sign c)
               inside outside
         | None => Some pt
         end.
Proof.
  intros base n inside outside.
  unfold GetPerimeterPoint, corner_circle_radius, classify_corner.
  cbv zeta.
  destruct (_ || _ || _); [reflexivity|].
  cbn [find in_corner].
  repeat match goal with
         | |- context [if ?t then _ else _] => destruct t
         end; reflexivity.
Qed.

(** C1.  When the rectangle obtained by deflating the bounds by
    [cornerRadius + borderThickness / 2] is empty, or [inside] and [outside]
    share their x coordinate, or share their y coordinate,
    [GetPerimeterPoint] returns exactly the base class's plain-rectangle
    perimeter point for the same inputs: no corner handling is applied. *)
Theorem C1_degenerate_returns_plain_point :
  forall (base : ProjectNode -> wxPoint -> wxPoint -> wxPoint)
         (n : ProjectNode) (inside outside : wxPoint),
    wxRect.IsEmpty
      (wxRect.Deflate (GetBounds n)
         (m_cornerRadius n + m_borderThickness n ÷ 2)) = true
    \/ pt_x inside = pt_x outside
    \/ pt_y inside = pt_y outside ->
    GetPerimeterPoint base n inside outside = Some (base n inside outside).
Proof.
  intros base n inside outside H.
  unfold GetPerimeterPoint. cbv zeta.
  destruct H as [He | [Hx | Hy]].
  - rewrite He. reflexivity.
  - apply Z.eqb_eq in Hx. rewrite Hx, orb_true_r. reflexivity.
  - apply Z.eqb_eq in Hy. rewrite Hy, orb_true_r. reflexivity.
Qed.

(** The specification's scenario: bounds [rect(0,0,100,60)], radius 10,
    border 6, [inside = (50,30)], [outside = (200,30)] gives [(100,30)]. *)
Lemma C1_witness_axis_aligned :
  GetPerimeterPoint plain_GetPerimeterPoint sample_node
    (mkPoint 50 30) (mkPoint 200 30) = Some (mkPoint 100 30).
Proof.
  exact (C1_degenerate_returns_plain_point plain_GetPerimeterPoint
           sample_node (mkPoint 50 30) (mkPoint 200 30)
           (or_intror (or_intror eq_refl))).
Defined.

(** A node too small for its corner circles: the deflated rectangle is
    empty and the plain point is returned for an oblique segment too. *)
Example degenerate_small_node :
  let n := new_ProjectNode "Sort" sample_font (mkRect 0 0 20 20) in
  wxRect.IsEmpty (wxRect.Deflate (GetBounds n) 13) = true
  /\ GetPerimeterPoint plain_GetPerimeterPoint n
       (mkPoint 10 10) (mkPoint (-30) (-20)) = Some (mkPoint 0 3).
Proof. split; reflexivity. Qed.



(** Values of the solver on those four calls. *)
Example corner_values :
  GetCornerPoint (mkPoint 13 13) 13 (-1) (mkPoint 50 30) (mkPoint (-50) (-40))
  = Some (mkPoint 8 1)
  /\ GetCornerPoint (mkPoint 13 46) 13 (-1) (mkPoint 50 30) (mkPoint (-50) 100)
     = Some (mkPoint 9 59)
  /\ GetCornerPoint (mkPoint 86 13) 13 1 (mkPoint 50 30) (mkPoint 150 (-40))
     = Some (mkPoint 92 1)
  /\ GetCornerPoint (mkPoint 86 46) 13 1 (mkPoint 50 30) (mkPoint 150 100)
     = Some (mkPoint 91 58).
Proof. repeat split; vm_compute; reflexivity. Qed.




(* ===================================================================== *)
(** ** Properties of the layout pass *)
(* ===================================================================== *)

(** Reduction of member reads over member assignments. *)
Ltac node_simpl :=
  cbn [m_style m_text m_font m_bounds m_id m_result m_icon
       m_borderThickness m_cornerRadius m_divide m_minSize m_rcText
       m_rcResult m_rcIcon GetStyle GetFont GetText GetResult GetBounds
       set_style set_text set_font set_bounds set_id set_result set_icon
       set_borderThickness set_cornerRadius set_divide set_minSize
       set_rcText set_rcResult set_rcIcon
       rc_x rc_y rc_width rc_height rc_set_y rc_set_width rc_set_height
       sz_x sz_y pt_x pt_y dc_font dc_measure
       wxRect.GetSize wxRect.GetWidth wxRect.GetHeight
       orb andb negb fst snd].

Section LayoutProperties.

Variable resized_origin : wxRect -> wxSize -> wxPoint.

(** The first part leaves the rectangles of the pass, not yet centred. *)
Lemma OnLayout_rects_members :
  forall dc n,
    OnLayout_rects (pass_spacing n) dc n =
    (if wxRect.IsEmpty (m_rcText n) || wxRect.IsEmpty (m_rcResult n)
     then dc_SetFont (GetFont n) dc else dc,
     mkNode (m_style n) (m_text n) (m_font n) (m_bounds n) (m_id n)
       (m_result n) (m_icon n) (m_borderThickness n) (m_cornerRadius n)
       (m_divide n) (m_minSize n)
       (pass_text dc n) (pass_result dc n) (pass_icon n)).
Proof.
  intros dc n.
  unfold pass_result, pass_icon, pass_text, cached.
  generalize (pass_spacing n); intro sp.
  destruct n as [st tx ft b id rs ic bt cr dv ms rt rr ri].
  unfold OnLayout_rects, dc_GetMultiLineTextExtent, dc_SetFont.
  node_simpl.
  destruct (wxRect.IsEmpty rt) eqn:Et; destruct (wxRect.IsEmpty rr) eqn:Er;
    node_simpl;
    try destruct (dc_measure dc ft tx) as [w h]; node_simpl;
    destruct (icon_Ok ic && wxRect.IsEmpty ri) eqn:Ei; node_simpl;
    rewrite ?Er; node_simpl;
    try destruct (dc_measure dc ft rs) as [w' h']; node_simpl;
    reflexivity.
Qed.

(** The second part on a node with given rectangles. *)
Lemma OnLayout_sizes_members :
  forall sp n,
    let ms :=
      mkSize
        (Z.max (wxRect.GetRight (m_rcText n))
               (wxRect.GetRight (m_rcResult n)) + sp + 1)
        (Z.max (wxRect.GetHeight (m_rcIcon n))
               (wxRect.GetHeight (m_rcResult n))
         + wxRect.GetBottom (m_rcText n) + 2 + 2 * sp
         - m_borderThickness n) in
    let b := GetBounds n in
    let b' :=
      if (rc_width b <? sz_x ms) || (rc_height b <? sz_y ms)
      then
        let size := mkSize (Z.max (rc_width b) (sz_x ms))
                           (Z.max (rc_height b) (sz_y ms)) in
        let o := resized_origin b size in
        mkRect (pt_x o) (pt_y o) (sz_x size) (sz_y size)
      else b in
    let dv := wxRect.GetBottom (m_rcText n) + 1 + sp - m_borderThickness n in
    let mid := (dv + rc_height b') ÷ 2 in
    OnLayout_sizes resized_origin sp n =
    mkNode (m_style n) (m_text n) (m_font n) b' (m_id n)
      (m_result n) (m_icon n) (m_borderThickness n) (m_cornerRadius n)
      dv ms (m_rcText n)
      (rc_set_y (mid - rc_height (m_rcResult n) ÷ 2) (m_rcResult n))
      (rc_set_y (mid - rc_height (m_rcIcon n) ÷ 2) (m_rcIcon n)).
Proof.
  intros sp n.
  destruct n as [st tx ft b id rs ic bt cr dv0 ms0 rt rr ri].
  unfold OnLayout_sizes, SetSize. node_simpl.
  generalize (Z.max (wxRect.GetRight rt) (wxRect.GetRight rr) + sp + 1).
  generalize (Z.max (wxRect.GetHeight ri) (wxRect.GetHeight rr)
              + wxRect.GetBottom rt + 2 + 2 * sp - bt).
  intros my mx.
  (destruct (rc_width b <? mx) eqn:E1;
     [apply Z.ltb_lt in E1 | apply Z.ltb_ge in E1]);
    node_simpl;
    (destruct (rc_height b <? my) eqn:E2;
       [apply Z.ltb_lt in E2 | apply Z.ltb_ge in E2]);
    node_simpl;
    rewrite ?(Z.max_r (rc_width b)) by lia;
    rewrite ?(Z.max_l (rc_width b)) by lia;
    rewrite ?(Z.max_r (rc_height b)) by lia;
    rewrite ?(Z.max_l (rc_height b)) by lia;
    reflexivity.
Qed.

(** The whole pass, member by member. *)
Lemma OnLayout_members :
  forall dc n,
    snd (OnLayout resized_origin dc n) =
    mkNode (m_style n) (m_text n) (m_font n)
      (pass_bounds resized_origin dc n) (m_id n)
      (m_result n) (m_icon n) (m_borderThickness n) (m_cornerRadius n)
      (pass_divide dc n) (pass_minSize dc n) (pass_text dc n)
      (rc_set_y (pass_mid resized_origin dc n
                 - rc_height (pass_result dc n) ÷ 2)
         (pass_result dc n))
      (rc_set_y (pass_mid resized_origin dc n - rc_height (pass_icon n) ÷ 2)
         (pass_icon n)).
Proof.
  intros dc n. unfold OnLayout.
  change (m_cornerRadius n + m_borderThickness n ÷ 2
          - (m_cornerRadius n - m_borderThickness n ÷ 2)
            * 1000000 ÷ 1414214)
    with (pass_spacing n).
  cbv zeta. rewrite OnLayout_rects_members. cbn [snd].
  rewrite OnLayout_sizes_members.
  reflexivity.
Qed.

Lemma rc_set_y_twice :
  forall y y' r, rc_set_y y (rc_set_y y' r) = rc_set_y y r.
Proof. reflexivity. Qed.

Lemma IsEmpty_rc_set_y :
  forall y r, wxRect.IsEmpty (rc_set_y y r) = wxRect.IsEmpty r.
Proof. reflexivity. Qed.

Lemma cached_again :
  forall c f, cached (cached c f) f = cached c f.
Proof.
  intros c f. unfold cached.
  destruct (wxRect.IsEmpty c) eqn:E.
  - destruct (wxRect.IsEmpty f); reflexivity.
  - rewrite E. reflexivity.
Qed.

(** Recomputing over a rectangle that was only moved vertically gives the
    same rectangle up to that vertical position. *)
Lemma cached_moved :
  forall c f y y',
    rc_set_y y (cached (rc_set_y y' (cached c f)) f)
    = rc_set_y y (cached c f).
Proof.
  intros c f y y'. unfold cached.
  rewrite IsEmpty_rc_set_y.
  destruct (wxRect.IsEmpty c) eqn:E.
  - destruct (wxRect.IsEmpty f); reflexivity.
  - rewrite E. reflexivity.
Qed.

Lemma same_box :
  forall a b, (forall y, rc_set_y y a = rc_set_y y b) ->
    rc_x a = rc_x b /\ rc_width a = rc_width b /\ rc_height a = rc_height b.
Proof.
  intros a b H. specialize (H 0). unfold rc_set_y in H.
  injection H as Hx Hw Hh. auto.
Qed.

(** The bounds a pass leaves are at least the minimum size it computed. *)
Lemma pass_bounds_size :
  forall dc n,
    rc_width (pass_bounds resized_origin dc n)
    = Z.max (rc_width (GetBounds n)) (sz_x (pass_minSize dc n))
    /\ rc_height (pass_bounds resized_origin dc n)
       = Z.max (rc_height (GetBounds n)) (sz_y (pass_minSize dc n)).
Proof.
  intros dc n. unfold pass_bounds. cbv zeta.
  destruct (_ || _) eqn:E.
  - split; reflexivity.
  - bool_to_Z. split; lia.
Qed.

(** *** A second pass over the result of a first *)

Section SecondPass.

Variables (dc : wxDC) (n : ProjectNode) (font' : wxFont).

Let n1 : ProjectNode := snd (OnLayout resized_origin dc n).
Let dc1 : wxDC := mkDC font' (dc_measure dc).

Lemma second_pass_spacing : pass_spacing n1 = pass_spacing n.
Proof. unfold n1. rewrite OnLayout_members. reflexivity. Qed.

Lemma second_pass_text : pass_text dc1 n1 = pass_text dc n.
Proof.
  unfold pass_text at 1. rewrite second_pass_spacing.
  unfold n1. rewrite OnLayout_members. node_simpl.
  unfold pass_text. cbv zeta. apply cached_again.
Qed.

Lemma second_pass_icon :
  forall y, rc_set_y y (pass_icon n1) = rc_set_y y (pass_icon n).
Proof.
  intro y. unfold pass_icon at 1. rewrite second_pass_spacing.
  unfold n1. rewrite OnLayout_members. node_simpl.
  rewrite IsEmpty_rc_set_y.
  unfold pass_icon.
  destruct (icon_Ok (m_icon n)); cbn [andb]; [|reflexivity].
  apply (cached_moved (m_rcIcon n)).
Qed.

Lemma second_pass_result :
  forall y, rc_set_y y (pass_result dc1 n1) = rc_set_y y (pass_result dc n).
Proof.
  intro y. unfold pass_result at 1. rewrite second_pass_spacing.
  destruct (same_box _ _ second_pass_icon) as (_ & Hw & _). rewrite Hw.
  unfold n1. rewrite OnLayout_members. node_simpl.
  unfold pass_result. cbv zeta. apply cached_moved.
Qed.

Lemma second_pass_minSize : pass_minSize dc1 n1 = pass_minSize dc n.
Proof.
  unfold pass_minSize. rewrite second_pass_spacing, second_pass_text.
  destruct (same_box _ _ second_pass_icon) as (_ & _ & Hih).
  destruct (same_box _ _ second_pass_result) as (Hrx & Hrw & Hrh).
  unfold wxRect.GetRight, wxRect.GetHeight.
  rewrite Hih, Hrx, Hrw, Hrh.
  unfold n1. rewrite OnLayout_members. reflexivity.
Qed.

Lemma second_pass_bounds :
  pass_bounds resized_origin dc1 n1 = pass_bounds resized_origin dc n.
Proof.
  unfold pass_bounds at 1. rewrite second_pass_minSize.
  replace (GetBounds n1) with (pass_bounds resized_origin dc n)
    by (unfold n1; rewrite OnLayout_members; reflexivity).
  destruct (pass_bounds_size dc n) as [Hw Hh].
  cbv zeta.
  destruct (_ || _) eqn:E; [|reflexivity].
  exfalso. apply orb_true_iff in E. destruct E as [E|E];
    apply Z.ltb_lt in E; lia.
Qed.

Lemma second_pass_divide : pass_divide dc1 n1 = pass_divide dc n.
Proof.
  unfold pass_divide. rewrite second_pass_spacing, second_pass_text.
  unfold n1. rewrite OnLayout_members. reflexivity.
Qed.

Lemma second_pass_mid :
  pass_mid resized_origin dc1 n1 = pass_mid resized_origin dc n.
Proof.
  unfold pass_mid. rewrite second_pass_divide, second_pass_bounds.
  reflexivity.
Qed.

Lemma second_pass_node :
  snd (OnLayout resized_origin dc1 n1) = n1.
Proof.
  rewrite OnLayout_members.
  rewrite second_pass_bounds, second_pass_divide, second_pass_minSize,
    second_pass_text, second_pass_mid.
  destruct (same_box _ _ second_pass_icon) as (_ & _ & Hih).
  destruct (same_box _ _ second_pass_result) as (_ & _ & Hrh).
  rewrite Hih, Hrh, second_pass_icon, second_pass_result.
  unfold n1 at 1 2 3 4 5 6 7 8. rewrite OnLayout_members. node_simpl.
  unfold n1. rewrite OnLayout_members. reflexivity.
Qed.

End SecondPass.

End LayoutProperties.

(** The device context a pass returns measures as the one it was given. *)
Lemma OnLayout_dc :
  forall resized_origin dc n,
    dc_measure (fst (OnLayout resized_origin dc n)) = dc_measure dc.
Proof.
  intros o dc n. unfold OnLayout.
  change (m_cornerRadius n + m_borderThickness n ÷ 2
          - (m_cornerRadius n - m_borderThickness n ÷ 2)
            * 1000000 ÷ 1414214)
    with (pass_spacing n).
  cbv zeta. rewrite OnLayout_rects_members. cbn [fst].
  destruct (_ || _); reflexivity.
Qed.

(** One pass over [fresh_node]: spacing 9, label at [(9,9)] of 40 by 20,
    icon 16 by 16, result 20 by 20 right of the icon, minimum size 63 by 62,
    bounds grown from 30 by 30 to that size, divide 32. *)
Example layout_fresh_node :
  laid_out_node =
  mkNode Style_Custom "Sort" sample_font (mkRect 10 20 63 62) "" "ok"
    (mkIcon true 16 16) 6 10 32 (mkSize 63 62)
    (mkRect 9 9 40 20) (mkRect 34 37 20 20) (mkRect 9 39 16 16).
Proof. reflexivity. Qed.

(** C5.  One layout pass leaves the bounds' width equal to
    [max (previous width) minSize.x] and their height equal to
    [max (previous height) minSize.y], for the [minSize] the pass computed:
    a dimension below [minSize] becomes exactly [minSize], a dimension that
    met it is unchanged, and the bounds never shrink. *)
Theorem C5_layout_grows_bounds_to_minSize :
  forall (resized_origin : wxRect -> wxSize -> wxPoint)
         (dc : wxDC) (n : ProjectNode),
    let n' := snd (OnLayout resized_origin dc n) in
    let w := rc_width (GetBounds n) in
    let h := rc_height (GetBounds n) in
    let w' := rc_width (GetBounds n') in
    let h' := rc_height (GetBounds n') in
    w' = Z.max w (sz_x (m_minSize n'))
    /\ h' = Z.max h (sz_y (m_minSize n'))
    /\ (w < sz_x (m_minSize n') -> w' = sz_x (m_minSize n'))
    /\ (h < sz_y (m_minSize n') -> h' = sz_y (m_minSize n'))
    /\ (sz_x (m_minSize n') <= w -> w' = w)
    /\ (sz_y (m_minSize n') <= h -> h' = h)
    /\ w <= w' /\ h <= h'.
Proof.
  intros o dc n n' w h w' h'.
  assert (Hw : w' = Z.max w (sz_x (m_minSize n'))
               /\ h' = Z.max h (sz_y (m_minSize n'))).
  { unfold w', h', n'. rewrite OnLayout_members. node_simpl.
    apply pass_bounds_size. }
  destruct Hw as [Hw Hh].
  repeat split; lia.
Qed.

(** The pass over [fresh_node] grows both dimensions, 30 by 30 to 63 by 62;
    a second node that is wide enough keeps its width. *)
Lemma C5_witness_growth :
  rc_width (GetBounds laid_out_node) = 63
  /\ rc_height (GetBounds laid_out_node) = 62
  /\ rc_width
       (GetBounds
          (Layout keep_origin sample_dc
             (set_bounds (mkRect 10 20 200 30) fresh_node))) = 200.
Proof.
  pose proof (C5_layout_grows_bounds_to_minSize keep_origin sample_dc
                fresh_node) as H1.
  pose proof (C5_layout_grows_bounds_to_minSize keep_origin sample_dc
                (set_bounds (mkRect 10 20 200 30) fresh_node)) as H2.
  cbv zeta in H1, H2.
  destruct H1 as (_ & _ & Hw & Hh & _).
  destruct H2 as (_ & _ & _ & _ & Hk & _).
  refine (conj (Hw _) (conj (Hh _) (Hk _))); vm_compute;
    first [reflexivity | discriminate].
Defined.


(** C8.  A second layout pass, with no change to a layout input or to the
    bounds in between and the same text measurement (whatever font the
    device context has selected, in particular with the device context
    the first pass returned), leaves the node as the first pass left it:
    textRect, resultRect, iconRect, minSize, divide and bounds are
    identical. *)
Theorem C8_layout_idempotent :
  forall (resized_origin : wxRect -> wxSize -> wxPoint)
         (dc : wxDC) (n : ProjectNode) (font' : wxFont),
    let first := OnLayout resized_origin dc n in
    let second :=
      OnLayout resized_origin (mkDC font' (dc_measure dc)) (snd first) in
    let again := OnLayout resized_origin (fst first) (snd first) in
    snd second = snd first
    /\ snd again = snd first
    /\ m_rcText (snd second) = m_rcText (snd first)
    /\ m_rcResult (snd second) = m_rcResult (snd first)
    /\ m_rcIcon (snd second) = m_rcIcon (snd first)
    /\ m_minSize (snd second) = m_minSize (snd first)
    /\ m_divide (snd second) = m_divide (snd first)
    /\ GetBounds (snd second) = GetBounds (snd first).
Proof.
  intros o dc n font' first second again.
  assert (H2 : snd second = snd first)
    by (apply second_pass_node).
  assert (H3 : snd again = snd first).
  { unfold again.
    replace (fst first)
      with (mkDC (dc_font (fst first)) (dc_measure dc)).
    - apply second_pass_node.
    - unfold first. rewrite <- (OnLayout_dc o dc n).
      destruct (fst (OnLayout o dc n)). reflexivity. }
  rewrite H2. repeat split; assumption.
Qed.

(** A second pass over [laid_out_node] changes nothing. *)
Example layout_twice_sample :
  Layout keep_origin sample_dc laid_out_node = laid_out_node.
Proof. reflexivity. Qed.

(* ===================================================================== *)
(** ** Properties of the setters *)
(* ===================================================================== *)

(** C4 as stated fails.  [SetResult] resets the result rectangle only: on
    [laid_out_node] the label rectangle [rect(9,9,40,20)] and the icon
    rectangle are still cached when the layout pass is entered (first
    conjuncts, where no pass is run at all) and when the setter returns
    after its layout pass (last conjuncts). *)
Lemma C4_counterexample_SetResult_keeps_label_cache :
  let entered :=
    SetResult (fun n => n) (fun n => n) "done" laid_out_node in
  let returned :=
    SetResult (Layout keep_origin sample_dc) Refresh "done" laid_out_node in
  m_rcResult entered = wxRect.empty
  /\ m_rcText entered = mkRect 9 9 40 20
  /\ wxRect.IsEmpty (m_rcText entered) = false
  /\ wxRect.IsEmpty (m_rcIcon entered) = false
  /\ ~ caches_reset entered
  /\ m_rcText returned = mkRect 9 9 40 20
  /\ ~ caches_reset returned.
Proof.
  cbv zeta. unfold caches_reset.
  repeat match goal with |- _ /\ _ => split end;
    try reflexivity;
    intros (H & _); vm_compute in H; discriminate H.
Qed.

(** C4, amended.  Each setter resets the cached rectangles that depend on
    the input it changes, before it hands over to the base-class setter or
    runs the layout pass: [SetText] resets textRect; [SetFont] resets
    textRect and resultRect; [SetResult] stores the result text and resets
    resultRect; [SetIcon] stores the icon and resets iconRect;
    [SetBorderThickness] and [SetCornerRadius] store their argument and
    reset all three.  The node [n'] below is the state in which the
    base-class setter, or the layout pass, is entered, whatever these
    operations do. *)
Theorem C4_setters_reset_dependent_caches :
  forall n : ProjectNode,
    (forall text, exists n',
        (forall base_SetText,
            SetText base_SetText text n = base_SetText text n')
        /\ m_rcText n' = wxRect.empty)
    /\ (forall font, exists n',
           (forall base_SetFont,
               SetFont base_SetFont font n = base_SetFont font n')
           /\ m_rcText n' = wxRect.empty
           /\ m_rcResult n' = wxRect.empty)
    /\ (forall text, exists n',
           (forall layout refresh,
               SetResult layout refresh text n = refresh (layout n'))
           /\ m_result n' = text
           /\ m_rcResult n' = wxRect.empty)
    /\ (forall icon, exists n',
           (forall layout refresh,
               SetIcon layout refresh icon n = refresh (layout n'))
           /\ m_icon n' = icon
           /\ m_rcIcon n' = wxRect.empty)
    /\ (forall thickness, exists n',
           (forall layout refresh,
               SetBorderThickness layout refresh thickness n
               = refresh (layout n'))
           /\ m_borderThickness n' = thickness
           /\ caches_reset n')
    /\ (forall radius, exists n',
           (forall layout refresh,
               SetCornerRadius layout refresh radius n
               = refresh (layout n'))
           /\ m_cornerRadius n' = radius
           /\ caches_reset n').
Proof.
  intro n. unfold caches_reset.
  repeat match goal with |- _ /\ _ => split end; intro v.
  - exists (set_rcText wxRect.empty n). repeat split.
  - exists (set_rcResult wxRect.empty (set_rcText wxRect.empty n)).
    repeat split.
  - exists (set_rcResult wxRect.empty (set_result v n)). repeat split.
  - exists (set_rcIcon wxRect.empty (set_icon v n)). repeat split.
  - exists (set_rcIcon wxRect.empty
              (set_rcResult wxRect.empty
                 (set_rcText wxRect.empty (set_borderThickness v n)))).
    repeat split.
  - exists (set_rcIcon wxRect.empty
              (set_rcResult wxRect.empty
                 (set_rcText wxRect.empty (set_cornerRadius v n)))).
    repeat split.
Qed.

(** With the layout pass run by the setter, the rectangles a setter reset
    are measured afresh: after [SetBorderThickness] the label rectangle is
    placed at the new spacing with the measured extent, whatever was cached
    before. *)
Lemma SetBorderThickness_relayout :
  forall resized_origin dc thickness n,
    let n' := SetBorderThickness (Layout resized_origin dc) Refresh
                thickness n in
    let sp := spacing_of (m_cornerRadius n) thickness in
    let e := dc_measure dc (GetFont n) (GetText n) in
    m_rcText n' = mkRect sp sp (fst e) (snd e).
Proof.
  intros o dc t n. cbv zeta.
  unfold SetBorderThickness, Refresh, Layout. cbv zeta.
  rewrite OnLayout_members. reflexivity.
Qed.

(* ===================================================================== *)
(** ** Properties of hit testing *)
(* ===================================================================== *)

(** Testing a point against a translated rectangle is testing the point,
    translated back, against the rectangle. *)
Lemma Inside_Offset :
  forall r o pt,
    wxRect.Inside (wxRect.Offset r o) pt = wxRect.Inside r (pt -p o).
Proof.
  intros r o pt. unfold wxRect.Inside, wxRect.Offset, wxPoint_sub.
  cbn [rc_x rc_y rc_width rc_height pt_x pt_y].
  assert (L : forall a b c, (a + b <=? c) = (a <=? c - b)).
  { intros a b c.
    destruct (Z.leb_spec (a + b) c), (Z.leb_spec a (c - b));
      try reflexivity; lia. }
  rewrite !L.
  replace (pt_y pt - (rc_y r + pt_y o)) with (pt_y pt - pt_y o - rc_y r)
    by lia.
  replace (pt_x pt - (rc_x r + pt_x o)) with (pt_x pt - pt_x o - rc_x r)
    by lia.
  reflexivity.
Qed.

Lemma first_containing_Offset :
  forall regions o pt generic,
    first_containing
      (map (fun rt => (wxRect.Offset (fst rt) o, snd rt)) regions) pt generic
    = first_containing regions (pt -p o) generic.
Proof.
  induction regions as [|[r tag] rest IH]; intros o pt generic.
  - reflexivity.
  - cbn [map first_containing fst snd].
    rewrite Inside_Offset, IH. reflexivity.
Qed.

(** [HitTest] on a node with the custom style. *)
Lemma HitTest_custom :
  forall n pt,
    GetStyle n = Style_Custom ->
    HitTest n pt =
    if wxRect.Inside (GetBounds n) pt
    then first_containing (hit_regions n)
           (pt -p wxRect.GetTopLeft (GetBounds n)) Hit_Yes
    else Hit_No.
Proof.
  intros n pt Hs. unfold HitTest. cbv zeta. rewrite Hs.
  destruct (wxRect.Inside (GetBounds n) pt); reflexivity.
Qed.

(** [HitTest] on a node with any other style. *)
Lemma HitTest_predefined :
  forall n pt,
    GetStyle n <> Style_Custom ->
    HitTest n pt =
    if wxRect.Inside (GetBounds n) pt then Hit_Yes else Hit_No.
Proof.
  intros n pt Hs. unfold HitTest. cbv zeta.
  apply Z.eqb_neq in Hs. rewrite Hs.
  destruct (wxRect.Inside (GetBounds n) pt); reflexivity.
Qed.

(** C9 as stated fails on a node whose style is not [Style_Custom]:
    [rectangle_node] has bounds [rect(10,20,63,62)] and result rectangle
    [rect(34,37,20,20)]; the point [(45,60)] is inside the bounds and, taken
    relative to their top-left corner, inside the result rectangle and
    outside the label rectangle, yet [HitTest] answers [Hit_Yes]. *)
Lemma C9_counterexample_predefined_style :
  let n := rectangle_node in
  let pt := mkPoint 45 60 in
  wxRect.Inside (GetBounds n) pt = true
  /\ wxRect.Inside (wxRect.Offset (m_rcText n)
                      (wxRect.GetTopLeft (GetBounds n))) pt = false
  /\ wxRect.Inside (wxRect.Offset (m_rcResult n)
                      (wxRect.GetTopLeft (GetBounds n))) pt = true
  /\ HitTest n pt = Hit_Yes
  /\ HitTest n pt <> Hit_Result.
Proof.
  cbv zeta. repeat split; try reflexivity. vm_compute. discriminate.
Qed.

(** C9, amended.  For a node whose style is [Style_Custom]: [HitTest]
    returns [Hit_No] when [pt] is outside the bounds; otherwise the cached
    rectangles, translated by the bounds' top-left corner, are tested in
    the order label ([Hit_Operation]), result ([Hit_Result]), icon
    ([Hit_Image]) and the tag of the first one containing [pt] is returned,
    else [Hit_Yes].  A point inside the bounds and the result rectangle
    never yields [Hit_Yes]: it yields [Hit_Result], or [Hit_Operation] when
    the label rectangle contains it too. *)
Theorem C9_hit_test_priority_custom_style :
  forall (n : ProjectNode) (pt : wxPoint),
    GetStyle n = Style_Custom ->
    let o := wxRect.GetTopLeft (GetBounds n) in
    let translated r := wxRect.Offset r o in
    (wxRect.Inside (GetBounds n) pt = false -> HitTest n pt = Hit_No)
    /\ (wxRect.Inside (GetBounds n) pt = true ->
        HitTest n pt =
        first_containing
          [ (translated (m_rcText n), Hit_Operation);
            (translated (m_rcResult n), Hit_Result);
            (translated (m_rcIcon n), Hit_Image) ] pt Hit_Yes)
    /\ (wxRect.Inside (GetBounds n) pt = true ->
        wxRect.Inside (translated (m_rcResult n)) pt = true ->
        HitTest n pt <> Hit_Yes
        /\ (wxRect.Inside (translated (m_rcText n)) pt = false ->
            HitTest n pt = Hit_Result)
        /\ (wxRect.Inside (translated (m_rcText n)) pt = true ->
            HitTest n pt = Hit_Operation)).
Proof.
  intros n pt Hs o translated.
  rewrite (HitTest_custom n pt Hs).
  split; [|split].
  - intros Hb. rewrite Hb. reflexivity.
  - intros Hb. rewrite Hb.
    exact (eq_sym (first_containing_Offset (hit_regions n) o pt Hit_Yes)).
  - intros Hb Hr. rewrite Hb.
    unfold translated in *. rewrite Inside_Offset in *.
    unfold hit_regions. cbn [first_containing]. fold o. rewrite Hr.
    destruct (wxRect.Inside (m_rcText n) (pt -p o)).
    + repeat split; congruence.
    + repeat split; congruence.
Qed.

(** On [laid_out_node] (custom style) the point [(45,60)] is in the result
    rectangle and outside the label: the tag is [Hit_Result]. *)
Lemma C9_witness_result_region :
  HitTest laid_out_node (mkPoint 45 60) = Hit_Result.
Proof.
  exact (proj1 (proj2
           (proj2 (proj2 (C9_hit_test_priority_custom_style laid_out_node
                            (mkPoint 45 60) eq_refl))
              eq_refl eq_refl))
           eq_refl).
Defined.

(** The tags over [laid_out_node]: label, icon, body, outside. *)
Example hit_test_regions_sample :
  HitTest laid_out_node (mkPoint 20 30) = Hit_Operation
  /\ HitTest laid_out_node (mkPoint 20 60) = Hit_Image
  /\ HitTest laid_out_node (mkPoint 70 25) = Hit_Yes
  /\ HitTest laid_out_node (mkPoint 5 5) = Hit_No.
Proof. repeat split. Qed.

(** C10.  For a node whose style is not [Style_Custom], [HitTest] returns
    [Hit_No] when [pt] is outside the bounds and [Hit_Yes] when it is
    inside; it returns [Hit_Operation], [Hit_Result] or [Hit_Image] only on
    a node whose style is [Style_Custom]. *)
Theorem C10_predefined_style_hit_or_miss :
  forall (n : ProjectNode) (pt : wxPoint),
    (GetStyle n <> Style_Custom ->
     (wxRect.Inside (GetBounds n) pt = false -> HitTest n pt = Hit_No)
     /\ (wxRect.Inside (GetBounds n) pt = true -> HitTest n pt = Hit_Yes)
     /\ (HitTest n pt = Hit_No \/ HitTest n pt = Hit_Yes))
    /\ (HitTest n pt = Hit_Operation \/ HitTest n pt = Hit_Result
        \/ HitTest n pt = Hit_Image ->
        GetStyle n = Style_Custom).
Proof.
  intros n pt. split.
  - intro Hs. rewrite (HitTest_predefined n pt Hs).
    destruct (wxRect.Inside (GetBounds n) pt);
      repeat split; intros; try congruence; auto.
  - intro H.
    destruct (Z.eq_dec (GetStyle n) Style_Custom) as [E|E]; [exact E|].
    rewrite (HitTest_predefined n pt E) in H.
    destruct (wxRect.Inside (GetBounds n) pt);
      destruct H as [H|[H|H]]; discriminate H.
Qed.

(** On [rectangle_node] the point [(20,30)], over the cached label
    rectangle, is a plain hit, and a point outside the bounds a miss. *)
Lemma C10_witness_rectangle_style :
  HitTest rectangle_node (mkPoint 20 30) = Hit_Yes
  /\ HitTest rectangle_node (mkPoint 5 5) = Hit_No.
Proof.
  assert (S : GetStyle rectangle_node <> Style_Custom)
    by (vm_compute; discriminate).
  split.
  - exact (proj1 (proj2 (proj1 (C10_predefined_style_hit_or_miss
                                  rectangle_node (mkPoint 20 30)) S))
             eq_refl).
  - exact (proj1 (proj1 (C10_predefined_style_hit_or_miss
                           rectangle_node (mkPoint 5 5)) S)
             eq_refl).
Defined.

(* ===================================================================== *)
(** ** Further properties: moving a node *)
(* ===================================================================== *)

Lemma wxPoint_eq :
  forall a b, pt_x a = pt_x b -> pt_y a = pt_y b -> a = b.
Proof. intros [ax ay] [bx by_]; cbn; intros; subst; reflexivity. Qed.

Lemma wxPoint_sub_moved :
  forall a c d, (a +p d) -p (c +p d) = a -p c.
Proof. intros. apply wxPoint_eq; cbn; lia. Qed.

Lemma wxPoint_add_sub :
  forall a d, (a +p d) -p d = a.
Proof. intros. apply wxPoint_eq; cbn; lia. Qed.

Lemma wxPoint_add_swap :
  forall a b d, (a +p d) +p b = (a +p b) +p d.
Proof. intros. apply wxPoint_eq; cbn; lia. Qed.

Lemma GetCornerPoint_moved :
  forall d centre radius sign inside outside,
    GetCornerPoint (centre +p d) radius sign (inside +p d) (outside +p d)
    = option_map (fun p => p +p d)
        (GetCornerPoint centre radius sign inside outside).
Proof.
  intros d centre radius sign inside outside.
  unfold GetCornerPoint. cbv zeta.
  rewrite !wxPoint_sub_moved.
  destruct (Double.to_int _) as [ix|]; [|reflexivity].
  destruct (Double.to_int _) as [iy|]; [|reflexivity].
  cbn [option_map]. f_equal. apply wxPoint_add_swap.
Qed.

(** X1.  [GetCornerPoint] is translation invariant: moving the centre and
    both points by the same offset [d] moves the result by [d] (and the
    result is undefined for the one exactly when it is for the other). *)
Theorem X1_GetCornerPoint_translation :
  forall (d centre : wxPoint) (radius sign : Z) (inside outside : wxPoint),
    GetCornerPoint (centre +p d) radius sign (inside +p d) (outside +p d)
    = option_map (fun p => p +p d)
        (GetCornerPoint centre radius sign inside outside).
Proof.
  intros d centre radius sign inside outside.
  unfold GetCornerPoint. cbv zeta.
  rewrite !wxPoint_sub_moved.
  destruct (Double.to_int _) as [ix|]; [|reflexivity].
  destruct (Double.to_int _) as [iy|]; [|reflexivity].
  cbn [option_map]. f_equal. apply wxPoint_add_swap.
Qed.

(** X2.  A plain perimeter point that lies level with the inner rectangle
    horizontally or vertically, that is on the straight part of an edge, is
    returned unchanged: corner handling only applies to points beyond the
    inner rectangle in both directions. *)
Theorem X2_straight_edge_point_kept :
  forall (base : ProjectNode -> wxPoint -> wxPoint -> wxPoint)
         (n : ProjectNode) (inside outside : wxPoint),
    let pt := base n inside outside in
    let b := wxRect.Deflate (GetBounds n)
               (m_cornerRadius n + m_borderThickness n ÷ 2) in
    rc_x b <= pt_x pt <= wxRect.GetRight b
    \/ rc_y b <= pt_y pt <= wxRect.GetBottom b ->
    GetPerimeterPoint base n inside outside = Some pt.
Proof.
  intros base n inside outside pt b H.
  unfold GetPerimeterPoint. cbv zeta. fold pt. fold b.
  destruct (_ || _ || _); [reflexivity|].
  assert (F : forall c, in_corner b c pt = false).
  { intros c. destruct (in_corner b c pt) eqn:E; [|reflexivity].
    exfalso. destruct c; cbn [in_corner] in E; bool_to_Z; lia. }
  pose proof (F TopLeft) as F1. pose proof (F TopRight) as F2.
  pose proof (F BottomLeft) as F3. pose proof (F BottomRight) as F4.
  cbn [in_corner] in F1, F2, F3, F4.
  rewrite F1, F2, F3, F4. reflexivity.
Qed.

(** From the centre of [sample_node] towards [(150,60)] the plain point is
    [(100,45)], on the straight part of the right edge. *)
Lemma X2_witness_right_edge :
  GetPerimeterPoint plain_GetPerimeterPoint sample_node
    (mkPoint 50 30) (mkPoint 150 60) = Some (mkPoint 100 45).
Proof.
  refine (X2_straight_edge_point_kept plain_GetPerimeterPoint sample_node
            (mkPoint 50 30) (mkPoint 150 60) _).
  right. vm_compute. split; discriminate.
Defined.

Lemma Deflate_Offset :
  forall r d m,
    wxRect.Deflate (wxRect.Offset r d) m
    = wxRect.Offset (wxRect.Deflate r m) d.
Proof.
  intros r d m. unfold wxRect.Deflate, wxRect.Offset.
  cbn [rc_x rc_y rc_width rc_height].
  destruct (rc_width r <? 2 * m); destruct (rc_height r <? 2 * m);
    cbn [rc_x rc_y rc_width rc_height]; f_equal; lia.
Qed.

Lemma in_corner_Offset :
  forall b c pt d,
    in_corner (wxRect.Offset b d) c (pt +p d) = in_corner b c pt.
Proof.
  intros b c pt d.
  destruct c; cbn [in_corner]; unfold wxRect.GetRight, wxRect.GetBottom,
    wxRect.Offset, wxPoint_add; cbn [rc_x rc_y rc_width rc_height pt_x pt_y];
    rewrite ?Z.gtb_ltb; f_equal;
    apply eq_true_iff_eq; rewrite !Z.ltb_lt; lia.
Qed.

Lemma corner_centre_Offset :
  forall b c d,
    corner_centre (wxRect.Offset b d) c = corner_centre b c +p d.
Proof.
  intros b c d. destruct c; apply wxPoint_eq;
    cbn [corner_centre]; unfold wxRect.GetRight, wxRect.GetBottom,
    wxRect.Offset, wxPoint_add; cbn [rc_x rc_y rc_width rc_height pt_x pt_y];
    lia.
Qed.

Lemma classify_corner_Offset :
  forall b pt d,
    classify_corner (wxRect.Offset b d) (pt +p d) = classify_corner b pt.
Proof.
  intros b pt d. unfold classify_corner. cbn [find].
  rewrite !in_corner_Offset. reflexivity.
Qed.

(** The base-class model moves with the node too. *)
Lemma plain_GetPerimeterPoint_moved :
  forall d n inside outside,
    plain_GetPerimeterPoint (moved d n) (inside +p d) (outside +p d)
    = plain_GetPerimeterPoint n inside outside +p d.
Proof.
  intros d n inside outside.
  unfold plain_GetPerimeterPoint, moved. cbv zeta.
  unfold GetBounds. node_simpl. unfold wxRect.Offset, wxPoint_add.
  cbn [rc_x rc_y rc_width rc_height pt_x pt_y].
  replace (pt_x outside + pt_x d - (pt_x inside + pt_x d))
    with (pt_x outside - pt_x inside) by lia.
  replace (pt_y outside + pt_y d - (pt_y inside + pt_y d))
    with (pt_y outside - pt_y inside) by lia.
  replace (rc_x (m_bounds n) + pt_x d - (pt_x inside + pt_x d))
    with (rc_x (m_bounds n) - pt_x inside) by lia.
  replace (rc_x (m_bounds n) + pt_x d + rc_width (m_bounds n)
           - (pt_x inside + pt_x d))
    with (rc_x (m_bounds n) + rc_width (m_bounds n) - pt_x inside) by lia.
  replace (rc_y (m_bounds n) + pt_y d - (pt_y inside + pt_y d))
    with (rc_y (m_bounds n) - pt_y inside) by lia.
  replace (rc_y (m_bounds n) + pt_y d + rc_height (m_bounds n)
           - (pt_y inside + pt_y d))
    with (rc_y (m_bounds n) + rc_height (m_bounds n) - pt_y inside) by lia.
  generalize ((rc_x (m_bounds n) - pt_x inside)
              * (pt_y outside - pt_y inside)
              ÷ (pt_x outside - pt_x inside)).
  generalize ((rc_x (m_bounds n) + rc_width (m_bounds n) - pt_x inside)
              * (pt_y outside - pt_y inside)
              ÷ (pt_x outside - pt_x inside)).
  generalize ((rc_y (m_bounds n) - pt_y inside)
              * (pt_x outside - pt_x inside)
              ÷ (pt_y outside - pt_y inside)).
  generalize ((rc_y (m_bounds n) + rc_height (m_bounds n) - pt_y inside)
              * (pt_x outside - pt_x inside)
              ÷ (pt_y outside - pt_y inside)).
  intros q4 q3 q2 q1.
  rewrite !Z.gtb_ltb.
  assert (L1 : forall a c e, (a + e <? c + e) = (a <? c))
    by (intros; apply eq_true_iff_eq; rewrite !Z.ltb_lt; lia).
  assert (L2 : forall a c e w, (c + e + w <? a + e) = (c + w <? a))
    by (intros; apply eq_true_iff_eq; rewrite !Z.ltb_lt; lia).
  rewrite !L1, !L2.
  destruct (pt_x outside <? rc_x (m_bounds n));
    [|destruct (rc_x (m_bounds n) + rc_width (m_bounds n) <? pt_x outside)];
    cbn [pt_x pt_y];
    repeat match goal with
           | |- context [?a <? ?c] => destruct (Z.ltb_spec a c)
           end;
    first [ apply wxPoint_eq; cbn [pt_x pt_y wxPoint_add]; lia
          | exfalso; lia ].
Qed.

(** X3.  The perimeter point moves with the node: when the node's bounds,
    [inside] and [outside] are all moved by [d], and the base class's plain
    perimeter point moves by [d] with them, the point [GetPerimeterPoint]
    returns moves by [d]. *)
Theorem X3_GetPerimeterPoint_moves_with_node :
  forall (base : ProjectNode -> wxPoint -> wxPoint -> wxPoint) (d : wxPoint),
    (forall n inside outside,
        base (moved d n) (inside +p d) (outside +p d)
        = base n inside outside +p d) ->
    forall (n : ProjectNode) (inside outside : wxPoint),
      GetPerimeterPoint base (moved d n) (inside +p d) (outside +p d)
      = option_map (fun p => p +p d)
          (GetPerimeterPoint base n inside outside).
Proof.
  intros base d Hbase n inside outside.
  rewrite !GetPerimeterPoint_dispatch. cbv zeta.
  rewrite Hbase.
  replace (corner_circle_radius (moved d n)) with (corner_circle_radius n)
    by reflexivity.
  replace (GetBounds (moved d n)) with (wxRect.Offset (GetBounds n) d)
    by reflexivity.
  rewrite Deflate_Offset.
  set (b := wxRect.Deflate (GetBounds n) (corner_circle_radius n)).
  replace (wxRect.IsEmpty (wxRect.Offset b d)) with (wxRect.IsEmpty b)
    by reflexivity.
  replace (pt_x (inside +p d) =? pt_x (outside +p d))
    with (pt_x inside =? pt_x outside)
    by (apply eq_true_iff_eq; cbn; rewrite !Z.eqb_eq; lia).
  replace (pt_y (inside +p d) =? pt_y (outside +p d))
    with (pt_y inside =? pt_y outside)
    by (apply eq_true_iff_eq; cbn; rewrite !Z.eqb_eq; lia).
  destruct (_ || _ || _); [reflexivity|].
  rewrite classify_corner_Offset.
  destruct (classify_corner b (base n inside outside)) as [c|];
    [|reflexivity].
  rewrite corner_centre_Offset. apply GetCornerPoint_moved.
Qed.

(** [sample_node] moved by [(200,-40)]: the top-left corner point [(8,1)]
    becomes [(208,-39)]. *)
Lemma X3_witness_moved_sample :
  GetPerimeterPoint plain_GetPerimeterPoint
    (moved (mkPoint 200 (-40)) sample_node)
    (mkPoint 250 (-10)) (mkPoint 150 (-80)) = Some (mkPoint 208 (-39)).
Proof.
  exact (X3_GetPerimeterPoint_moves_with_node plain_GetPerimeterPoint
           (mkPoint 200 (-40))
           (plain_GetPerimeterPoint_moved (mkPoint 200 (-40)))
           sample_node (mkPoint 50 30) (mkPoint (-50) (-40))).
Defined.

(** X4.  Hit testing moves with the node: for a node whose bounds are moved
    by [d], the point [pt + d] gets the tag [pt] gets on the original. *)
Theorem X4_HitTest_moves_with_node :
  forall (d : wxPoint) (n : ProjectNode) (pt : wxPoint),
    HitTest (moved d n) (pt +p d) = HitTest n pt.
Proof.
  intros d n pt. unfold HitTest, moved. cbv zeta.
  unfold GetBounds, GetStyle. node_simpl.
  rewrite Inside_Offset, wxPoint_add_sub.
  replace (pt +p d -p wxRect.GetTopLeft (wxRect.Offset (m_bounds n) d))
    with (pt -p wxRect.GetTopLeft (m_bounds n))
    by (apply wxPoint_eq; cbn; lia).
  reflexivity.
Qed.

(** X5.  [HitTest] answers [Hit_No] exactly for the points outside the
    node's bounds, whatever the style and the cached rectangles. *)
Theorem X5_HitTest_miss_iff_outside_bounds :
  forall (n : ProjectNode) (pt : wxPoint),
    HitTest n pt = Hit_No <-> wxRect.Inside (GetBounds n) pt = false.
Proof.
  intros n pt. unfold HitTest. cbv zeta.
  destruct (wxRect.Inside (GetBounds n) pt); cbn [negb].
  - split; [|discriminate].
    repeat match goal with
           | |- context [if ?t then _ else _] => destruct t
           end; discriminate.
  - split; reflexivity.
Qed.

(* ===================================================================== *)
(** ** Further properties of the layout pass *)
(* ===================================================================== *)

(** Truncating division by two. *)
Lemma quot2_bounds :
  forall z, z - 1 <= 2 * (z ÷ 2) <= z + 1
            /\ (0 <= z -> 2 * (z ÷ 2) <= z)
            /\ (z <= 0 -> z <= 2 * (z ÷ 2)).
Proof. intro z. Z.quot_rem_to_equations. lia. Qed.

(** The spacing for a non-negative radius and thickness. *)
Lemma spacing_of_bounds :
  forall cr bt,
    0 <= cr -> 0 <= bt ->
    bt ÷ 2 <= spacing_of cr bt /\ 0 <= spacing_of cr bt
    /\ bt <= 2 * spacing_of cr bt + 1
    /\ (bt ÷ 2 <= cr -> spacing_of cr bt <= cr + bt ÷ 2).
Proof.
  intros cr bt Hcr Hbt. unfold spacing_of.
  Z.quot_rem_to_equations. lia.
Qed.



(** X7.  A layout pass changes none of its inputs: style, text, font, id,
    result text, icon, border thickness and corner radius are what they
    were; and it keeps what is cached: a label rectangle that is not empty
    is left as it is, a result or icon rectangle that is not empty keeps
    its x, width and height (only its y is set again). *)
Theorem X7_layout_keeps_inputs_and_caches :
  forall (resized_origin : wxRect -> wxSize -> wxPoint)
         (dc : wxDC) (n : ProjectNode),
    let n' := snd (OnLayout resized_origin dc n) in
    (m_style n' = m_style n /\ m_text n' = m_text n /\ m_font n' = m_font n
     /\ m_id n' = m_id n /\ m_result n' = m_result n /\ m_icon n' = m_icon n
     /\ m_borderThickness n' = m_borderThickness n
     /\ m_cornerRadius n' = m_cornerRadius n)
    /\ (wxRect.IsEmpty (m_rcText n) = false -> m_rcText n' = m_rcText n)
    /\ (wxRect.IsEmpty (m_rcResult n) = false ->
        forall y, rc_set_y y (m_rcResult n') = rc_set_y y (m_rcResult n))
    /\ (wxRect.IsEmpty (m_rcIcon n) = false ->
        forall y, rc_set_y y (m_rcIcon n') = rc_set_y y (m_rcIcon n)).
Proof.
  intros o dc n n'. unfold n'. rewrite OnLayout_members. node_simpl.
  split; [repeat split|].
  split; [|split].
  - intro E. unfold pass_text, cached. rewrite E. reflexivity.
  - intros E y. unfold pass_result, cached. rewrite E. reflexivity.
  - intros E y. unfold pass_icon. rewrite E, andb_false_r. reflexivity.
Qed.

(** The device context a pass returns. *)
Lemma OnLayout_fst :
  forall resized_origin dc n,
    fst (OnLayout resized_origin dc n) =
    if wxRect.IsEmpty (m_rcText n) || wxRect.IsEmpty (m_rcResult n)
    then dc_SetFont (GetFont n) dc else dc.
Proof.
  intros o dc n. unfold OnLayout.
  change (m_cornerRadius n + m_borderThickness n ÷ 2
          - (m_cornerRadius n - m_borderThickness n ÷ 2)
            * 1000000 ÷ 1414214)
    with (pass_spacing n).
  cbv zeta. rewrite OnLayout_rects_members. reflexivity.
Qed.

(** X8.  With a label rectangle and a result rectangle that are both
    cached (not empty), a pass measures nothing and selects no font: the
    node it returns is the same for any two device contexts, and the
    device context is returned as it was given. *)
Theorem X8_layout_with_caches_ignores_dc :
  forall (resized_origin : wxRect -> wxSize -> wxPoint)
         (dc dc' : wxDC) (n : ProjectNode),
    wxRect.IsEmpty (m_rcText n) = false ->
    wxRect.IsEmpty (m_rcResult n) = false ->
    snd (OnLayout resized_origin dc n) = snd (OnLayout resized_origin dc' n)
    /\ fst (OnLayout resized_origin dc n) = dc.
Proof.
  intros o dc dc' n Et Er. split.
  - rewrite !OnLayout_members.
    assert (T : forall d, pass_text d n = m_rcText n)
      by (intro d0; unfold pass_text, cached; rewrite Et; reflexivity).
    assert (R : forall d, pass_result d n = m_rcResult n)
      by (intro d0; unfold pass_result, cached; rewrite Er; reflexivity).
    unfold pass_mid, pass_bounds, pass_divide, pass_minSize.
    rewrite !T, !R. reflexivity.
  - rewrite OnLayout_fst, Et, Er. reflexivity.
Qed.

(** A device context that measures every text as empty. *)
Lemma X8_witness_laid_out_node :
  snd (OnLayout keep_origin sample_dc laid_out_node)
  = snd (OnLayout keep_origin
           (mkDC sample_font (fun _ _ => (0, 0))) laid_out_node)
  /\ fst (OnLayout keep_origin sample_dc laid_out_node) = sample_dc.
Proof.
  exact (X8_layout_with_caches_ignores_dc keep_origin sample_dc
           (mkDC sample_font (fun _ _ => (0, 0))) laid_out_node
           eq_refl eq_refl).
Defined.


(** X10.  After a layout pass the icon and the result rectangle are centred
    on one horizontal line, half way between the divide and the height of
    the bounds: [y + height / 2] is [(divide + bounds.height) / 2] for
    both. *)
Theorem X10_icon_and_result_share_centre_line :
  forall (resized_origin : wxRect -> wxSize -> wxPoint)
         (dc : wxDC) (n : ProjectNode),
    let n' := snd (OnLayout resized_origin dc n) in
    let mid := (m_divide n' + rc_height (GetBounds n')) ÷ 2 in
    rc_y (m_rcIcon n') + rc_height (m_rcIcon n') ÷ 2 = mid
    /\ rc_y (m_rcResult n') + rc_height (m_rcResult n') ÷ 2 = mid.
Proof.
  intros o dc n n' mid. unfold mid, n'.
  rewrite OnLayout_members. unfold GetBounds. node_simpl.
  unfold pass_mid. split; lia.
Qed.

(** X11.  After a layout pass on a node whose corner radius, border
    thickness and initial height are not negative, with a divide and icon
    and result heights that are not negative, the icon and the result
    rectangle lie in the body of the node: not above the divide and not
    below the bottom of the bounds. *)
Theorem X11_icon_and_result_below_divide :
  forall (resized_origin : wxRect -> wxSize -> wxPoint)
         (dc : wxDC) (n : ProjectNode),
    let n' := snd (OnLayout resized_origin dc n) in
    0 <= m_cornerRadius n -> 0 <= m_borderThickness n ->
    0 <= rc_height (GetBounds n) ->
    0 <= m_divide n' ->
    0 <= rc_height (m_rcIcon n') -> 0 <= rc_height (m_rcResult n') ->
    (m_divide n' <= rc_y (m_rcIcon n')
     /\ rc_y (m_rcIcon n') + rc_height (m_rcIcon n')
        <= rc_height (GetBounds n'))
    /\ (m_divide n' <= rc_y (m_rcResult n')
        /\ rc_y (m_rcResult n') + rc_height (m_rcResult n')
           <= rc_height (GetBounds n')).
Proof.
  intros o dc n n'. unfold n'.
  rewrite OnLayout_members. unfold GetBounds. node_simpl.
  intros Hcr Hbt Hh0 Hd Hi Hr.
  destruct (pass_bounds_size o dc n) as [_ Hh].
  unfold pass_mid. rewrite Hh.
  unfold pass_minSize. cbv zeta. node_simpl.
  unfold pass_divide in *. unfold wxRect.GetHeight.
  pose proof (spacing_of_bounds _ _ Hcr Hbt) as (_ & Hsp & _).
  fold (pass_spacing n) in Hsp.
  set (D := wxRect.GetBottom (pass_text dc n) + 1 + pass_spacing n
            - m_borderThickness n) in *.
  set (ih := rc_height (pass_icon n)) in *.
  set (rh := rc_height (pass_result dc n)) in *.
  set (sp := pass_spacing n) in *.
  set (h0 := rc_height (m_bounds n)) in *.
  replace (Z.max ih rh + wxRect.GetBottom (pass_text dc n) + 2 + 2 * sp
           - m_borderThickness n)
    with (Z.max ih rh + D + 1 + sp) by (unfold D; lia).
  set (H := Z.max h0 (Z.max ih rh + D + 1 + sp)).
  assert (HH : Z.max ih rh + D + 1 + sp <= H) by (unfold H; lia).
  assert (H0' : 0 <= H) by (unfold H; lia).
  clearbody H D ih rh sp h0.
  Z.quot_rem_to_equations. lia.
Qed.

(** On [laid_out_node]: divide 32, icon from 39 to 55, result from 37 to
    57, height 62. *)
Lemma X11_witness_laid_out_node :
  (m_divide laid_out_node <= rc_y (m_rcIcon laid_out_node)
   /\ rc_y (m_rcIcon laid_out_node) + rc_height (m_rcIcon laid_out_node)
      <= rc_height (GetBounds laid_out_node))
  /\ (m_divide laid_out_node <= rc_y (m_rcResult laid_out_node)
      /\ rc_y (m_rcResult laid_out_node)
         + rc_height (m_rcResult laid_out_node)
         <= rc_height (GetBounds laid_out_node)).
Proof.
  refine (X11_icon_and_result_below_divide keep_origin sample_dc fresh_node
            _ _ _ _ _ _); vm_compute; discriminate.
Defined.



(* ===================================================================== *)
(** ** Properties of the canvas background *)
(* ===================================================================== *)

(** *** The zoom loop *)

Lemma zoom_loop_more_fuel :
  forall fuel factor zoom r,
    zoom_loop fuel factor zoom = Some r ->
    forall fuel', (fuel <= fuel')%nat -> zoom_loop fuel' factor zoom = Some r.
Proof.
  induction fuel as [|fuel IH]; intros factor zoom r H fuel' Hle.
  - cbn in H. destruct (zoom <=? 50) eqn:E; [discriminate|].
    destruct fuel'; cbn; rewrite E; exact H.
  - cbn in H. destruct (zoom <=? 50) eqn:E.
    + destruct fuel' as [|fuel']; [lia|]. cbn. rewrite E.
      apply IH; [exact H | lia].
    + destruct fuel'; cbn; rewrite E; exact H.
Qed.

Lemma zoom_loop_returns :
  forall fuel factor zoom,
    50 < zoom * 2 ^ Z.of_nat fuel ->
    exists r, zoom_loop fuel factor zoom = Some r.
Proof.
  induction fuel as [|fuel IH]; intros factor zoom H.
  - cbn in *. destruct (zoom <=? 50) eqn:E; [bool_to_Z; lia|eauto].
  - cbn [zoom_loop]. destruct (zoom <=? 50) eqn:E; [|eauto].
    apply IH. rewrite Nat2Z.inj_succ, Z.pow_succ_r in H by lia. lia.
Qed.

Lemma zoom_loop_result :
  forall fuel factor zoom f z,
    0 < zoom ->
    zoom_loop fuel factor zoom = Some (f, z) ->
    exists k : nat,
      f = factor * 2 ^ Z.of_nat k /\ z = zoom * 2 ^ Z.of_nat k
      /\ 50 < z /\ (zoom <= 50 -> z <= 100) /\ (50 < zoom -> k = O).
Proof.
  induction fuel as [|fuel IH]; intros factor zoom f z Hz H.
  - cbn in H. destruct (zoom <=? 50) eqn:E; [discriminate|].
    injection H as <- <-. bool_to_Z. exists O.
    change (2 ^ Z.of_nat 0) with 1. repeat split; lia.
  - cbn [zoom_loop] in H. destruct (zoom <=? 50) eqn:E.
    + bool_to_Z.
      assert (Hz2 : 0 < zoom * 2) by lia.
      destruct (IH _ _ _ _ Hz2 H) as (k & Hf & Hzz & H50 & H100 & H0).
      exists (S k). rewrite Nat2Z.inj_succ, Z.pow_succ_r by lia.
      repeat split; try lia.
      intros _. destruct (Z_le_gt_dec (zoom * 2) 50) as [L|G].
      * specialize (H100 L). lia.
      * assert (G2 : 50 < zoom * 2) by lia.
        specialize (H0 G2). subst k.
        change (2 ^ Z.of_nat 0) with 1 in *. lia.
    + injection H as <- <-. bool_to_Z. exists O.
    change (2 ^ Z.of_nat 0) with 1. repeat split; lia.
Qed.

Lemma zoom_loop_never_returns :
  forall fuel factor zoom, zoom <= 0 -> zoom_loop fuel factor zoom = None.
Proof.
  induction fuel as [|fuel IH]; intros factor zoom H; cbn [zoom_loop];
    destruct (zoom <=? 50) eqn:E; try (bool_to_Z; lia).
  - reflexivity.
  - apply IH. lia.
Qed.

(** The factor is positive whenever it is defined. *)
Lemma grid_factor_positive :
  forall fuel pd env factor spacing,
    grid_factor_spacing fuel pd env = Some (factor, spacing) ->
    0 < factor /\ spacing = factor * GetGridSpacing env.
Proof.
  intros fuel pd env factor spacing H. unfold grid_factor_spacing in H.
  destruct (IsGridShown pd).
  - cbv zeta in H. destruct (GetZoom env =? 0) eqn:Z0; cbn in H.
    + injection H as <- <-. split; [lia|reflexivity].
    + destruct (zoom_loop fuel 5 (GetZoom env)) as [[f z]|] eqn:L;
        [|discriminate].
      cbn in H. injection H as <- <-. split; [|reflexivity].
      assert (P : forall fuel factor zoom f z,
                 0 < factor -> zoom_loop fuel factor zoom = Some (f, z) ->
                 0 < f).
      { clear. induction fuel as [|fuel IH]; intros factor zoom f z Hf H;
          cbn [zoom_loop] in H; destruct (zoom <=? 50);
          try discriminate; try (injection H as <- <-; exact Hf).
        assert (Hf2 : 0 < factor * 2) by lia.
        apply (IH _ _ _ _ Hf2 H). }
      assert (H5 : 0 < 5) by lia.
      apply (P _ _ _ _ _ H5 L).
  - injection H as <- <-. split; [lia|]. lia.
Qed.

(** X13.  With the grid shown and a positive zoom, the factor loop ends
    within six doublings: the factor is [5 * 2^k] and the spacing
    [5 * 2^k] grid units, where [k] is the number of doublings that takes
    the zoom above 50: none for a zoom above 50, and otherwise the doubled
    zoom ends between 51 and 100. *)
Theorem X13_grid_factor_for_positive_zoom :
  forall (fuel : nat) (pd : ProjectDesigner) (env : CanvasEnv),
    IsGridShown pd = true -> 0 < GetZoom env -> (6 <= fuel)%nat ->
    exists k : nat,
      grid_factor_spacing fuel pd env
      = Some (5 * 2 ^ Z.of_nat k, 5 * 2 ^ Z.of_nat k * GetGridSpacing env)
      /\ (k <= 6)%nat
      /\ 50 < GetZoom env * 2 ^ Z.of_nat k
      /\ (GetZoom env <= 50 -> GetZoom env * 2 ^ Z.of_nat k <= 100)
      /\ (50 < GetZoom env -> k = O).
Proof.
  intros fuel pd env Hg Hz Hf. unfold grid_factor_spacing. rewrite Hg.
  cbv zeta.
  assert (Z0 : (GetZoom env =? 0) = false) by (apply Z.eqb_neq; lia).
  rewrite Z0. cbn [negb].
  destruct (zoom_loop_returns 6 5 (GetZoom env)) as [[f z] L6].
  { change (2 ^ Z.of_nat 6) with 64. lia. }
  rewrite (zoom_loop_more_fuel _ _ _ _ L6 fuel Hf). cbn [bind_opt].
  destruct (zoom_loop_result _ _ _ _ _ Hz L6)
    as (k & -> & -> & H50 & H100 & H0).
  exists k. repeat split; try assumption.
  destruct (Nat.le_gt_cases k 6) as [L|G]; [exact L|exfalso].
  destruct (Z_le_gt_dec (GetZoom env) 50) as [Le|Gt].
  - specialize (H100 Le).
    assert (2 ^ 7 <= 2 ^ Z.of_nat k) by (apply Z.pow_le_mono_r; lia).
    change (2 ^ 7) with 128 in *. nia.
  - assert (G50 : 50 < GetZoom env) by lia.
    specialize (H0 G50). lia.
Qed.

(** At zoom 25 percent two doublings take 25 to 100: the factor is 20. *)
Lemma X13_witness_zoom_25 :
  exists k : nat,
    grid_factor_spacing 6 sample_designer
      (mkCanvasEnv 25 10 (mkColour 0 0 0) (mkRect 1 1 98 58)
         (fun x => x) (fun y => y))
    = Some (5 * 2 ^ Z.of_nat k, 5 * 2 ^ Z.of_nat k * 10)
    /\ (k <= 6)%nat
    /\ 50 < 25 * 2 ^ Z.of_nat k
    /\ (25 <= 50 -> 25 * 2 ^ Z.of_nat k <= 100)
    /\ (50 < 25 -> k = O).
Proof.
  exact (X13_grid_factor_for_positive_zoom 6 sample_designer
           (mkCanvasEnv 25 10 (mkColour 0 0 0) (mkRect 1 1 98 58)
              (fun x => x) (fun y => y))
           eq_refl eq_refl (le_n 6)).
Defined.

Example grid_factor_zoom_25 :
  grid_factor_spacing 6 sample_designer
    (mkCanvasEnv 25 10 (mkColour 0 0 0) (mkRect 1 1 98 58)
       (fun x => x) (fun y => y))
  = Some (20, 200).
Proof. reflexivity. Qed.



(** *** The stripes *)

Lemma stripe_loop_more_fuel :
  forall fuel spacing factor c0 c1 right rc last l,
    stripe_loop fuel spacing factor c0 c1 right rc last = Some l ->
    forall fuel', (fuel <= fuel')%nat ->
      stripe_loop fuel' spacing factor c0 c1 right rc last = Some l.
Proof.
  induction fuel as [|fuel IH]; intros spacing factor c0 c1 right rc last l
    H fuel' Hle.
  - cbn in H. destruct (rc_x rc <? right) eqn:E; [discriminate|].
    destruct fuel'; cbn; rewrite E; exact H.
  - cbn [stripe_loop] in H. destruct (rc_x rc <? right) eqn:E.
    + destruct fuel' as [|fuel']; [lia|]. cbn [stripe_loop]. rewrite E.
      destruct (stripe_rgb spacing factor c0 c1 (rc_x rc)) as [[r g] b].
      destruct last as [[lr lg] lb].
      cbv zeta in *.
      destruct (stripe_loop fuel _ _ _ _ _ _ _) as [rest|] eqn:R;
        [|discriminate].
      rewrite (IH _ _ _ _ _ _ _ _ R fuel') by lia. exact H.
    + destruct fuel'; cbn; rewrite E; exact H.
Qed.

Lemma stripe_loop_returns :
  forall fuel spacing factor c0 c1 right rc last,
    0 < spacing ->
    (Z.to_nat (right - rc_x rc) <= fuel)%nat ->
    exists l, stripe_loop fuel spacing factor c0 c1 right rc last = Some l.
Proof.
  induction fuel as [|fuel IH]; intros spacing factor c0 c1 right rc last
    Hs Hf; cbn [stripe_loop];
    destruct (rc_x rc <? right) eqn:E; eauto; bool_to_Z; [lia|].
  destruct (stripe_rgb spacing factor c0 c1 (rc_x rc)) as [[r g] b].
  destruct last as [[lr lg] lb]. cbv zeta.
  match goal with
  | |- context [stripe_loop fuel ?s ?f ?a ?b ?rt ?rc' ?la] =>
      destruct (IH s f a b rt rc' la Hs) as [rest R]
  end.
  { cbn [rc_set_x rc_x]. lia. }
  rewrite R. cbn [bind_opt]. eauto.
Qed.

(** The rectangles of the stripes: all like the first one, a whole number
    of spacings to its right, and left of [right]. *)
Lemma stripe_loop_rectangles :
  forall fuel spacing factor c0 c1 right rc last l,
    stripe_loop fuel spacing factor c0 c1 right rc last = Some l ->
    forall r, In (Call_DrawRectangle r) l ->
      (exists j, 0 <= j /\ r = rc_set_x (rc_x rc + j * spacing) rc)
      /\ rc_x r < right.
Proof.
  induction fuel as [|fuel IH]; intros spacing factor c0 c1 right rc last l
    H r Hin; cbn [stripe_loop] in H;
    destruct (rc_x rc <? right) eqn:E; try discriminate;
    try (injection H as <-; destruct Hin).
  destruct (stripe_rgb spacing factor c0 c1 (rc_x rc)) as [[cr cg] cb].
  destruct last as [[lr lg] lb]. cbv zeta in H.
  destruct (stripe_loop fuel _ _ _ _ _ _ _) as [rest|] eqn:R;
    [|discriminate].
  cbn [bind_opt] in H. injection H as <-.
  apply in_app_or in Hin. destruct Hin as [Hin|Hin].
  - destruct (_ || _ || _); cbn in Hin; [|contradiction].
    destruct Hin as [Hin|[]]. discriminate.
  - destruct Hin as [Hin|Hin].
    + injection Hin as <-. bool_to_Z. split; [|assumption].
      exists 0. split; [lia|]. destruct rc. unfold rc_set_x. cbn.
      f_equal. lia.
    + destruct (IH _ _ _ _ _ _ _ _ R r Hin) as [(j & Hj & ->) Hr].
      split; [|exact Hr]. exists (j + 1). split; [lia|].
      unfold rc_set_x. cbn [rc_x rc_y rc_width rc_height]. f_equal. lia.
Qed.

(** The stripes leave no gap between the first one and [right]. *)
Lemma stripe_loop_covers :
  forall fuel spacing factor c0 c1 right rc last l,
    0 < spacing ->
    stripe_loop fuel spacing factor c0 c1 right rc last = Some l ->
    rc_x rc < right ->
    forall x, rc_x rc <= x <= right ->
      exists r, In (Call_DrawRectangle r) l
                /\ rc_x r <= x <= rc_x r + spacing.
Proof.
  induction fuel as [|fuel IH]; intros spacing factor c0 c1 right rc last l
    Hs H Hlt x Hx; cbn [stripe_loop] in H;
    destruct (rc_x rc <? right) eqn:E; try discriminate;
    try (bool_to_Z; lia).
  destruct (stripe_rgb spacing factor c0 c1 (rc_x rc)) as [[cr cg] cb].
  destruct last as [[lr lg] lb]. cbv zeta in H.
  destruct (stripe_loop fuel _ _ _ _ _ _ _) as [rest|] eqn:R;
    [|discriminate].
  cbn [bind_opt] in H. injection H as <-.
  destruct (Z_le_gt_dec x (rc_x rc + spacing)) as [Le|Gt].
  - exists rc. split; [|lia]. apply in_or_app. right. left. reflexivity.
  - destruct (IH _ _ _ _ _ _ _ _ Hs R) with (x := x) as (r & Hin & Hr).
    + cbn [rc_set_x rc_x]. lia.
    + cbn [rc_set_x rc_x]. lia.
    + exists r. split; [|exact Hr].
      apply in_or_app. right. right. exact Hin.
Qed.

(** A component of the gradient lies between the two end values. *)
Lemma gradient_component_between :
  forall a b i,
    0 <= i <= 255 ->
    Z.min a b <= a + (b - a) * i ÷ 255 <= Z.max a b.
Proof.
  intros a b i Hi.
  set (d := b - a).
  assert (Hd : (0 <= d -> 0 <= d * i <= d * 255)
               /\ (d <= 0 -> d * 255 <= d * i <= 0)) by (split; nia).
  set (p := d * i) in *.
  assert (Q : (0 <= d -> 0 <= p ÷ 255 <= d) /\ (d <= 0 -> d <= p ÷ 255 <= 0)).
  { clearbody p. destruct Hd as [Hp Hn]. Z.quot_rem_to_equations. lia. }
  unfold d in *. lia.
Qed.

Lemma stripe_index_range :
  forall spacing factor x,
    0 <= factor -> 0 <= Z.min (Z.abs (x ÷ spacing) * factor) 255 <= 255.
Proof.
  intros spacing factor x Hf.
  pose proof (Z.abs_nonneg (x ÷ spacing)). nia.
Qed.

Lemma stripe_rgb_between :
  forall spacing factor c0 c1 x red green blue,
    0 <= factor ->
    stripe_rgb spacing factor c0 c1 x = (red, green, blue) ->
    Z.min (Red c0) (Red c1) <= red <= Z.max (Red c0) (Red c1)
    /\ Z.min (Green c0) (Green c1) <= green <= Z.max (Green c0) (Green c1)
    /\ Z.min (Blue c0) (Blue c1) <= blue <= Z.max (Blue c0) (Blue c1).
Proof.
  intros spacing factor c0 c1 x red green blue Hf H.
  unfold stripe_rgb in H. cbv zeta in H. injection H as <- <- <-.
  pose proof (stripe_index_range spacing factor x Hf) as Hi.
  repeat split; apply gradient_component_between; exact Hi.
Qed.

Lemma wxColour_rgb_in_range :
  forall r g b,
    0 <= r <= 255 -> 0 <= g <= 255 -> 0 <= b <= 255 ->
    wxColour_rgb r g b = mkColour r g b.
Proof.
  intros r g b Hr Hg Hb. unfold wxColour_rgb.
  rewrite !Z.mod_small by lia. reflexivity.
Qed.

(** The brush bookkeeping: with end colours in range, every stripe is
    painted with its own colour selected, provided the brush selected on
    entry is the one remembered in [last] (or nothing is remembered). *)
Lemma stripe_loop_painted :
  forall fuel spacing factor c0 c1 right rc last b l,
    0 <= factor -> colour_ok c0 -> colour_ok c1 ->
    (last = (-1, -1, -1)
     \/ exists r g bl, last = (r, g, bl) /\ b = Some (wxColour_rgb r g bl)) ->
    stripe_loop fuel spacing factor c0 c1 right rc last = Some l ->
    Forall (fun rb => snd rb
                      = Some (stripe_colour spacing factor c0 c1
                                (rc_x (fst rb))))
           (painted b l).
Proof.
  induction fuel as [|fuel IH]; intros spacing factor c0 c1 right rc last b l
    Hf H0 H1 Hlast H; cbn [stripe_loop] in H;
    destruct (rc_x rc <? right) eqn:E; try discriminate;
    try (injection H as <-; constructor).
  destruct (stripe_rgb spacing factor c0 c1 (rc_x rc)) as [[cr cg] cb] eqn:RGB.
  destruct last as [[lr lg] lb]. cbv zeta in H.
  destruct (stripe_loop fuel _ _ _ _ _ _ _) as [rest|] eqn:R;
    [|discriminate].
  cbn [bind_opt] in H. injection H as <-.
  pose proof (stripe_rgb_between _ _ _ _ _ _ _ _ Hf RGB) as (Br & Bg & Bb).
  pose proof H0 as (R0 & G0 & B0). pose proof H1 as (R1 & G1 & B1).
  assert (Own : stripe_colour spacing factor c0 c1 (rc_x rc)
                = wxColour_rgb cr cg cb)
    by (unfold stripe_colour; rewrite RGB; reflexivity).
  destruct (negb (cr =? lr) || negb (cg =? lg) || negb (cb =? lb)) eqn:Ch.
  - cbn [app painted]. constructor.
    + cbn [fst snd]. rewrite Own. reflexivity.
    + refine (IH _ _ _ _ _ _ _ _ _ Hf H0 H1 _ R).
      right. exists cr, cg, cb. split; reflexivity.
  - cbn [app painted].
    apply orb_false_iff in Ch. destruct Ch as [Ch Cb].
    apply orb_false_iff in Ch. destruct Ch as [Cr Cg].
    apply negb_false_iff in Cr, Cg, Cb. bool_to_Z. subst lr lg lb.
    destruct Hlast as [Hl | (r & g & bl & Hl & Hb)].
    + injection Hl as -> -> ->. lia.
    + injection Hl as <- <- <-.
      constructor.
      * cbn [fst snd]. rewrite Own. exact Hb.
      * refine (IH _ _ _ _ _ _ _ _ _ Hf H0 H1 _ R).
        right. exists cr, cg, cb. split; [reflexivity | exact Hb].
Qed.

(** *** The grid lines *)

Lemma line_loop_returns :
  forall fuel spacing line v1 v2,
    0 < spacing ->
    (Z.to_nat (v2 - v1 + 1) <= fuel)%nat ->
    exists l, line_loop fuel spacing line v1 v2 = Some l.
Proof.
  induction fuel as [|fuel IH]; intros spacing line v1 v2 Hs Hf;
    cbn [line_loop]; destruct (v1 <=? v2) eqn:E; eauto; bool_to_Z; [lia|].
  destruct (IH spacing line (v1 + spacing) v2 Hs) as [rest R]; [lia|].
  rewrite R. cbn [bind_opt]. eauto.
Qed.

Lemma line_loop_members :
  forall fuel spacing line v1 v2 l,
    line_loop fuel spacing line v1 v2 = Some l ->
    forall c, In c l ->
      exists j, 0 <= j /\ c = line (v1 + j * spacing)
                /\ v1 + j * spacing <= v2.
Proof.
  induction fuel as [|fuel IH]; intros spacing line v1 v2 l H c Hin;
    cbn [line_loop] in H; destruct (v1 <=? v2) eqn:E; try discriminate;
    try (injection H as <-; destruct Hin).
  destruct (line_loop fuel spacing line (v1 + spacing) v2) as [rest|] eqn:R;
    [|discriminate].
  cbn [bind_opt] in H. injection H as <-. bool_to_Z.
  destruct Hin as [<-|Hin].
  - exists 0. repeat split; try lia. f_equal. lia.
  - destruct (IH _ _ _ _ _ R c Hin) as (j & Hj & -> & Hle).
    exists (j + 1). repeat split; try lia. f_equal. lia.
Qed.

Lemma line_loop_complete :
  forall fuel spacing line v1 v2 l,
    0 < spacing ->
    line_loop fuel spacing line v1 v2 = Some l ->
    forall j, 0 <= j -> v1 + j * spacing <= v2 ->
      In (line (v1 + j * spacing)) l.
Proof.
  induction fuel as [|fuel IH]; intros spacing line v1 v2 l Hs H j Hj Hle;
    cbn [line_loop] in H; destruct (v1 <=? v2) eqn:E; try discriminate;
    try (bool_to_Z; nia).
  destruct (line_loop fuel spacing line (v1 + spacing) v2) as [rest|] eqn:R;
    [|discriminate].
  cbn [bind_opt] in H. injection H as <-.
  destruct (Z.eq_dec j 0) as [->|Hn].
  - left. f_equal. lia.
  - right.
    replace (v1 + j * spacing) with (v1 + spacing + (j - 1) * spacing)
      by lia.
    apply (IH _ _ _ _ _ Hs R); lia.
Qed.

Lemma line_loop_more_fuel :
  forall fuel spacing line v1 v2 l,
    line_loop fuel spacing line v1 v2 = Some l ->
    forall fuel', (fuel <= fuel')%nat ->
      line_loop fuel' spacing line v1 v2 = Some l.
Proof.
  induction fuel as [|fuel IH]; intros spacing line v1 v2 l H fuel' Hle.
  - cbn in H. destruct (v1 <=? v2) eqn:E; [discriminate|].
    destruct fuel'; cbn; rewrite E; exact H.
  - cbn [line_loop] in H. destruct (v1 <=? v2) eqn:E.
    + destruct fuel' as [|fuel']; [lia|]. cbn [line_loop]. rewrite E.
      destruct (line_loop fuel spacing line (v1 + spacing) v2)
        as [rest|] eqn:R; [|discriminate].
      rewrite (IH _ _ _ _ _ R fuel') by lia. exact H.
    + destruct fuel'; cbn; rewrite E; exact H.
Qed.

(** Rounding a coordinate to the grid: the start is a multiple of the
    spacing at or before [v], within one spacing; the end is a multiple at
    or after [v]. *)
Lemma grid_start :
  forall v spacing,
    0 < spacing ->
    let a := v - Z.rem v spacing in
    let a := if v <? 0 then a - spacing else a in
    (exists q, a = q * spacing) /\ v - spacing <= a <= v.
Proof.
  intros v spacing Hs. cbv zeta.
  pose proof (Z.quot_rem' v spacing) as E.
  destruct (v <? 0) eqn:N; bool_to_Z.
  - pose proof (Z.rem_bound_neg_pos v spacing) as B. split.
    + exists (v ÷ spacing - 1). lia.
    + assert (spacing * -1 < Z.rem v spacing <= 0).
      { pose proof (Z.rem_opp_l' v spacing) as O.
        pose proof (Z.rem_bound_pos (- v) spacing ltac:(lia) Hs). lia. }
      lia.
  - pose proof (Z.rem_bound_pos v spacing N Hs). split.
    + exists (v ÷ spacing). lia.
    + lia.
Qed.

Lemma grid_end :
  forall v spacing,
    0 < spacing ->
    let b := v - Z.rem v spacing in
    let b := if v >? 0 then b + spacing else b in
    (exists q, b = q * spacing) /\ v <= b.
Proof.
  intros v spacing Hs. cbv zeta.
  pose proof (Z.quot_rem' v spacing) as E.
  rewrite Z.gtb_ltb.
  destruct (0 <? v) eqn:P; bool_to_Z.
  - pose proof (Z.rem_bound_pos v spacing ltac:(lia) Hs). split.
    + exists (v ÷ spacing + 1). lia.
    + lia.
  - split.
    + exists (v ÷ spacing). lia.
    + pose proof (Z.rem_opp_l' v spacing) as O.
      pose proof (Z.rem_bound_pos (- v) spacing ltac:(lia) Hs). lia.
Qed.

(** The grid calls: one pen, then lines only. *)
Lemma grid_lines_calls :
  forall fuel spacing fg clip l,
    grid_lines fuel spacing fg clip = Some l ->
    exists vertical horizontal x1 x2 y1 y2,
      l = Call_SetPen (wxPen_solid fg 1) :: vertical ++ horizontal
      /\ line_loop fuel spacing
           (fun x => Call_DrawLine x (rc_y clip) x (wxRect.GetBottom clip))
           x1 x2 = Some vertical
      /\ line_loop fuel spacing
           (fun y => Call_DrawLine (rc_x clip) y (wxRect.GetRight clip) y)
           y1 y2 = Some horizontal
      /\ x1 = (let a := rc_x clip - Z.rem (rc_x clip) spacing in
               if rc_x clip <? 0 then a - spacing else a)
      /\ x2 = (let b := wxRect.GetRight clip
                        - Z.rem (wxRect.GetRight clip) spacing in
               if wxRect.GetRight clip >? 0 then b + spacing else b)
      /\ y1 = (let a := rc_y clip - Z.rem (rc_y clip) spacing in
               if rc_y clip <? 0 then a - spacing else a)
      /\ y2 = (let b := wxRect.GetBottom clip
                        - Z.rem (wxRect.GetBottom clip) spacing in
               if wxRect.GetBottom clip >? 0 then b + spacing else b).
Proof.
  intros fuel spacing fg clip l H. unfold grid_lines in H. cbv zeta in H.
  destruct (line_loop fuel spacing
              (fun x1 => Call_DrawLine x1 (rc_y clip) x1
                           (wxRect.GetBottom clip)) _ _)
    as [vertical|] eqn:V; [|discriminate].
  cbn [bind_opt] in H.
  destruct (line_loop fuel spacing
              (fun y1 => Call_DrawLine (rc_x clip) y1
                           (wxRect.GetRight clip) y1) _ _)
    as [horizontal|] eqn:Hz; [|discriminate].
  cbn [bind_opt] in H. injection H as <-.
  do 6 eexists. split; [reflexivity|].
  split; [exact V|]. split; [exact Hz|]. repeat split; reflexivity.
Qed.

Lemma painted_no_rectangles :
  forall l,
    (forall r, ~ In (Call_DrawRectangle r) l) ->
    forall b, painted b l = [].
Proof.
  induction l as [|c l IH]; intros Hr b; [reflexivity|].
  assert (Hr' : forall r, ~ In (Call_DrawRectangle r) l)
    by (intros r Hin; apply (Hr r); right; exact Hin).
  destruct c as [p|col|f|col|r|r rad|x1 y1 x2 y2|t r|i p];
    cbn [painted]; try (apply IH; assumption).
  exfalso. apply (Hr r). left. reflexivity.
Qed.

Lemma painted_app_no_rectangles :
  forall l1 l2 b,
    (forall b', painted b' l2 = []) ->
    painted b (l1 ++ l2) = painted b l1.
Proof.
  induction l1 as [|c l1 IH]; intros l2 b H; cbn [app].
  - apply H.
  - destruct c; cbn [painted]; try (apply IH; exact H).
    f_equal. apply IH. exact H.
Qed.

Lemma grid_lines_only_lines :
  forall fuel spacing fg clip l,
    grid_lines fuel spacing fg clip = Some l ->
    (forall r, ~ In (Call_DrawRectangle r) l)
    /\ (forall c, ~ In (Call_SetBrush c) l).
Proof.
  intros fuel spacing fg clip l H.
  destruct (grid_lines_calls _ _ _ _ _ H)
    as (v & h & x1 & x2 & y1 & y2 & -> & V & Hz & _).
  split; intros r [Hin|Hin]; try discriminate;
    apply in_app_or in Hin; destruct Hin as [Hin|Hin];
    [ destruct (line_loop_members _ _ _ _ _ _ V _ Hin) as (j & _ & E & _)
    | destruct (line_loop_members _ _ _ _ _ _ Hz _ Hin) as (j & _ & E & _)
    | destruct (line_loop_members _ _ _ _ _ _ V _ Hin) as (j & _ & E & _)
    | destruct (line_loop_members _ _ _ _ _ _ Hz _ Hin) as (j & _ & E & _) ];
    discriminate.
Qed.

(** The parts of a run of [DrawCanvasBackground] that returns. *)
Lemma DrawCanvasBackground_calls :
  forall fuel pd env calls,
    DrawCanvasBackground fuel pd env = Some calls ->
    exists factor spacing stripes grid,
      grid_factor_spacing fuel pd env = Some (factor, spacing)
      /\ stripe_loop fuel spacing factor
           (fst (m_background pd)) (snd (m_background pd))
           (wxRect.GetRight (logical_clip env))
           (first_stripe spacing (logical_clip env)) (-1, -1, -1)
         = Some stripes
      /\ (if IsGridShown pd
          then grid_lines fuel spacing (GetForegroundColour env)
                 (logical_clip env)
          else Some []) = Some grid
      /\ calls = Call_SetPen wxTRANSPARENT_PEN :: stripes ++ grid.
Proof.
  intros fuel pd env calls H. unfold DrawCanvasBackground in H.
  cbv zeta in H.
  destruct (grid_factor_spacing fuel pd env) as [[factor spacing]|];
    [|discriminate].
  cbn [bind_opt] in H. destruct (m_background pd) as [c0 c1].
  destruct (stripe_loop fuel spacing factor c0 c1 _ _ _) as [stripes|] eqn:S;
    [|discriminate].
  cbn [bind_opt] in H.
  destruct (if IsGridShown pd then _ else _) as [grid|] eqn:G;
    [|discriminate].
  cbn [bind_opt] in H. injection H as <-.
  exists factor, spacing, stripes, grid. repeat split; assumption.
Qed.

Lemma grid_part_only_lines :
  forall (shown : bool) fuel spacing fg clip grid,
    (if shown then grid_lines fuel spacing fg clip else Some [])
    = Some grid ->
    (forall r, ~ In (Call_DrawRectangle r) grid)
    /\ (forall c, ~ In (Call_SetBrush c) grid).
Proof.
  intros [|] fuel spacing fg clip grid H.
  - exact (grid_lines_only_lines _ _ _ _ _ H).
  - injection H as <-. split; intros ? [].
Qed.

Lemma first_stripe_aligned :
  forall spacing clip,
    0 < spacing ->
    let rc := first_stripe spacing clip in
    rc_y rc = rc_y clip /\ rc_height rc = rc_height clip
    /\ rc_width rc = spacing + 1
    /\ (exists q, rc_x rc = q * spacing)
    /\ rc_x clip - spacing <= rc_x rc <= rc_x clip.
Proof.
  intros spacing clip Hs. cbv zeta.
  pose proof (grid_start (rc_x clip) spacing Hs) as G. cbv zeta in G.
  unfold first_stripe. cbv zeta.
  destruct (rc_x clip <? 0); cbn [rc_set_x rc_set_width rc_x rc_y rc_width
                                  rc_height];
    (split; [reflexivity|]); (split; [reflexivity|]);
    (split; [reflexivity|]); exact G.
Qed.

Lemma grid_lines_more_fuel :
  forall fuel spacing fg clip l,
    grid_lines fuel spacing fg clip = Some l ->
    forall fuel', (fuel <= fuel')%nat ->
      grid_lines fuel' spacing fg clip = Some l.
Proof.
  intros fuel spacing fg clip l H fuel' Hle.
  unfold grid_lines in *. cbv zeta in *.
  match type of H with
  | context [line_loop fuel ?s ?ln ?a ?b] =>
      destruct (line_loop fuel s ln a b) as [v|] eqn:V; [|discriminate]
  end.
  rewrite (line_loop_more_fuel _ _ _ _ _ _ V fuel' Hle).
  cbn [bind_opt] in *.
  match type of H with
  | context [line_loop fuel ?s ?ln ?a ?b] =>
      destruct (line_loop fuel s ln a b) as [h|] eqn:Hh; [|discriminate]
  end.
  rewrite (line_loop_more_fuel _ _ _ _ _ _ Hh fuel' Hle).
  exact H.
Qed.

Lemma grid_factor_spacing_more_fuel :
  forall fuel pd env r,
    grid_factor_spacing fuel pd env = Some r ->
    forall fuel', (fuel <= fuel')%nat ->
      grid_factor_spacing fuel' pd env = Some r.
Proof.
  intros fuel pd env r H fuel' Hle. unfold grid_factor_spacing in *.
  destruct (IsGridShown pd); [|exact H]. cbv zeta in *.
  destruct (negb (GetZoom env =? 0)); [|exact H].
  destruct (zoom_loop fuel 5 (GetZoom env)) as [fz|] eqn:L; [|discriminate].
  rewrite (zoom_loop_more_fuel _ _ _ _ L fuel' Hle). exact H.
Qed.

Lemma grid_factor_spacing_returns :
  forall pd env,
    (IsGridShown pd = true -> 0 <= GetZoom env) ->
    exists r, grid_factor_spacing 6 pd env = Some r.
Proof.
  intros pd env Hz. unfold grid_factor_spacing.
  destruct (IsGridShown pd); [|eauto]. cbv zeta.
  specialize (Hz eq_refl).
  destruct (GetZoom env =? 0) eqn:Z0; cbn [negb bind_opt]; [eauto|].
  bool_to_Z.
  destruct (zoom_loop_returns 6 5 (GetZoom env)) as [[f z] L].
  { change (2 ^ Z.of_nat 6) with 64. lia. }
  rewrite L. cbn [bind_opt]. eauto.
Qed.

(** X15.  [DrawCanvasBackground] returns: for a positive grid spacing and,
    when the grid is shown, a zoom that is not negative, all its loops end,
    and more fuel than that changes nothing. *)
Theorem X15_DrawCanvasBackground_returns :
  forall (pd : ProjectDesigner) (env : CanvasEnv),
    0 < GetGridSpacing env ->
    (IsGridShown pd = true -> 0 <= GetZoom env) ->
    exists (fuel0 : nat) (calls : list DCCall),
      forall fuel, (fuel0 <= fuel)%nat ->
        DrawCanvasBackground fuel pd env = Some calls.
Proof.
  intros pd env Hgs Hz.
  destruct (grid_factor_spacing_returns pd env Hz) as [[factor spacing] G].
  destruct (grid_factor_positive _ _ _ _ _ G) as [Hf Hsp].
  assert (Hs : 0 < spacing) by nia.
  set (clip := logical_clip env).
  set (n1 := Z.to_nat (wxRect.GetRight clip
                       - rc_x (first_stripe spacing clip))).
  set (n2 := Z.to_nat (Z.abs (wxRect.GetRight clip) + Z.abs (rc_x clip)
                       + 2 * spacing + 1)).
  set (n3 := Z.to_nat (Z.abs (wxRect.GetBottom clip) + Z.abs (rc_y clip)
                       + 2 * spacing + 1)).
  set (fuel0 := (6 + n1 + n2 + n3)%nat).
  destruct (m_background pd) as [c0 c1] eqn:BG.
  destruct (stripe_loop_returns fuel0 spacing factor c0 c1
              (wxRect.GetRight clip) (first_stripe spacing clip)
              (-1, -1, -1) Hs) as [stripes S]; [unfold fuel0; lia|].
  assert (GL : exists grid,
             (if IsGridShown pd
              then grid_lines fuel0 spacing (GetForegroundColour env) clip
              else Some []) = Some grid).
  { destruct (IsGridShown pd); [|eauto].
    unfold grid_lines. cbv zeta.
    pose proof (grid_start (rc_x clip) spacing Hs) as (_ & A1).
    pose proof (grid_end (wxRect.GetRight clip) spacing Hs) as (_ & A2).
    pose proof (grid_start (rc_y clip) spacing Hs) as (_ & B1).
    pose proof (grid_end (wxRect.GetBottom clip) spacing Hs) as (_ & B2).
    cbv zeta in A1, A2, B1, B2.
    assert (A3 : (if wxRect.GetRight clip >? 0
                  then wxRect.GetRight clip
                       - Z.rem (wxRect.GetRight clip) spacing + spacing
                  else wxRect.GetRight clip
                       - Z.rem (wxRect.GetRight clip) spacing)
                 <= Z.abs (wxRect.GetRight clip) + spacing).
    { pose proof (Z.rem_bound_abs (wxRect.GetRight clip) spacing
                    ltac:(lia)) as RB.
      pose proof (Z.quot_rem' (wxRect.GetRight clip) spacing).
      destruct (wxRect.GetRight clip >? 0) eqn:P; rewrite Z.gtb_ltb in P;
        bool_to_Z.
      - pose proof (Z.rem_bound_pos (wxRect.GetRight clip) spacing
                      ltac:(lia) Hs). lia.
      - pose proof (Z.rem_opp_l' (wxRect.GetRight clip) spacing).
        pose proof (Z.rem_bound_pos (- wxRect.GetRight clip) spacing
                      ltac:(lia) Hs). lia. }
    assert (B3 : (if wxRect.GetBottom clip >? 0
                  then wxRect.GetBottom clip
                       - Z.rem (wxRect.GetBottom clip) spacing + spacing
                  else wxRect.GetBottom clip
                       - Z.rem (wxRect.GetBottom clip) spacing)
                 <= Z.abs (wxRect.GetBottom clip) + spacing).
    { pose proof (Z.quot_rem' (wxRect.GetBottom clip) spacing).
      destruct (wxRect.GetBottom clip >? 0) eqn:P; rewrite Z.gtb_ltb in P;
        bool_to_Z.
      - pose proof (Z.rem_bound_pos (wxRect.GetBottom clip) spacing
                      ltac:(lia) Hs). lia.
      - pose proof (Z.rem_opp_l' (wxRect.GetBottom clip) spacing).
        pose proof (Z.rem_bound_pos (- wxRect.GetBottom clip) spacing
                      ltac:(lia) Hs). lia. }
    match goal with
    | |- context [line_loop fuel0 spacing ?ln ?a ?b] =>
        destruct (line_loop_returns fuel0 spacing ln a b Hs) as [v V]
    end.
    { unfold fuel0, n2. lia. }
    rewrite V. cbn [bind_opt].
    match goal with
    | |- context [line_loop fuel0 spacing ?ln ?a ?b] =>
        destruct (line_loop_returns fuel0 spacing ln a b Hs) as [h Hh]
    end.
    { unfold fuel0, n3. lia. }
    rewrite Hh. cbn [bind_opt]. eauto. }
  destruct GL as [grid GL].
  exists fuel0, (Call_SetPen wxTRANSPARENT_PEN :: stripes ++ grid).
  intros fuel Hle. unfold DrawCanvasBackground. cbv zeta.
  rewrite (grid_factor_spacing_more_fuel _ _ _ _ G fuel)
    by (unfold fuel0 in Hle; lia).
  cbn [bind_opt]. rewrite BG. fold clip.
  rewrite (stripe_loop_more_fuel _ _ _ _ _ _ _ _ _ S fuel Hle).
  cbn [bind_opt].
  assert (GL' : (if IsGridShown pd
                 then grid_lines fuel spacing (GetForegroundColour env) clip
                 else Some []) = Some grid).
  { destruct (IsGridShown pd); [|exact GL].
    exact (grid_lines_more_fuel _ _ _ _ _ GL fuel Hle). }
  rewrite GL'. reflexivity.
Qed.

(** The sample environment: two stripes and six grid lines. *)
Lemma X15_witness_sample :
  exists (fuel0 : nat) (calls : list DCCall),
    forall fuel, (fuel0 <= fuel)%nat ->
      DrawCanvasBackground fuel sample_designer sample_env = Some calls.
Proof.
  refine (X15_DrawCanvasBackground_returns sample_designer sample_env _ _).
  - reflexivity.
  - intros _. discriminate.
Defined.

Example background_sample :
  DrawCanvasBackground 8 sample_designer sample_env
  = Some
      [ Call_SetPen wxTRANSPARENT_PEN;
        Call_SetBrush (mkColour 255 255 255);
        Call_DrawRectangle (mkRect 0 0 51 60);
        Call_SetBrush (mkColour 250 252 253);
        Call_DrawRectangle (mkRect 50 0 51 60);
        Call_SetPen (wxPen_solid (mkColour 0 0 0) 1);
        Call_DrawLine 0 0 0 59; Call_DrawLine 50 0 50 59;
        Call_DrawLine 100 0 100 59;
        Call_DrawLine 0 0 99 0; Call_DrawLine 0 50 99 50;
        Call_DrawLine 0 100 99 100 ].
Proof. reflexivity. Qed.

Lemma In_background_rectangle :
  forall stripes grid r,
    (forall r', ~ In (Call_DrawRectangle r') grid) ->
    In (Call_DrawRectangle r)
       (Call_SetPen wxTRANSPARENT_PEN :: stripes ++ grid) ->
    In (Call_DrawRectangle r) stripes.
Proof.
  intros stripes grid r Hg [Hin|Hin]; [discriminate|].
  apply in_app_or in Hin. destruct Hin as [Hin|Hin]; [exact Hin|].
  destruct (Hg r Hin).
Qed.







(** With equal end colours every stripe has that colour. *)
Lemma stripe_rgb_uniform :
  forall spacing factor c x,
    stripe_rgb spacing factor c c x = (Red c, Green c, Blue c).
Proof.
  intros spacing factor c x. unfold stripe_rgb. cbv zeta.
  rewrite !Z.sub_diag, !Z.mul_0_l, !Z.quot_0_l, !Z.add_0_r by lia.
  reflexivity.
Qed.

Lemma stripe_loop_uniform_same :
  forall fuel spacing factor c right rc l,
    stripe_loop fuel spacing factor c c right rc (Red c, Green c, Blue c)
    = Some l ->
    brushes l = [].
Proof.
  induction fuel as [|fuel IH]; intros spacing factor c right rc l H;
    cbn [stripe_loop] in H; destruct (rc_x rc <? right);
    try discriminate; try (injection H as <-; reflexivity).
  rewrite stripe_rgb_uniform in H. cbv zeta beta iota in H.
  rewrite !Z.eqb_refl in H. cbn [negb orb] in H.
  destruct (stripe_loop fuel _ _ _ _ _ _ _) as [rest|] eqn:R;
    [|discriminate].
  cbn [bind_opt app] in H. injection H as <-.
  cbn [brushes]. exact (IH _ _ _ _ _ _ R).
Qed.

Lemma stripe_loop_uniform_first :
  forall fuel spacing factor c right rc l,
    colour_ok c ->
    stripe_loop fuel spacing factor c c right rc (-1, -1, -1) = Some l ->
    (exists rest, l = Call_SetBrush c :: Call_DrawRectangle rc :: rest
                  /\ brushes rest = [])
    \/ l = [].
Proof.
  intros fuel spacing factor c right rc l Hc H.
  assert (Nil : Some [] = Some l ->
                (exists rest,
                    l = Call_SetBrush c :: Call_DrawRectangle rc :: rest
                    /\ brushes rest = [])
                \/ l = [])
    by (intros E; injection E as <-; right; reflexivity).
  destruct fuel as [|fuel]; cbn [stripe_loop] in H;
    destruct (rc_x rc <? right); try discriminate; try exact (Nil H).
  clear Nil.
  rewrite stripe_rgb_uniform in H. cbv zeta beta iota in H.
  destruct Hc as (Hr & Hg & Hb).
  assert (E : (Red c =? -1) = false) by (apply Z.eqb_neq; lia).
  rewrite E in H. cbn [negb orb] in H.
  destruct (stripe_loop fuel _ _ _ _ _ _ _) as [rest|] eqn:R;
    [|discriminate].
  cbn [bind_opt app] in H. injection H as <-. left.
  exists rest. split.
  - rewrite wxColour_rgb_in_range by assumption. destruct c; reflexivity.
  - exact (stripe_loop_uniform_same _ _ _ _ _ _ _ R).
Qed.

Lemma brushes_app :
  forall l1 l2, brushes (l1 ++ l2) = brushes l1 ++ brushes l2.
Proof.
  induction l1 as [|c l1 IH]; intros l2; [reflexivity|].
  destruct c; cbn [app brushes]; rewrite IH; reflexivity.
Qed.

Lemma brushes_none :
  forall l, (forall c, ~ In (Call_SetBrush c) l) -> brushes l = [].
Proof.
  induction l as [|c l IH]; intros H; [reflexivity|].
  assert (H' : forall c', ~ In (Call_SetBrush c') l)
    by (intros c' Hin; apply (H c'); right; exact Hin).
  destruct c as [p|col|f|col|r|r rad|x1 y1 x2 y2|t r|i p];
    cbn [brushes]; try (apply IH; assumption).
  exfalso. apply (H col). left. reflexivity.
Qed.





(** What the hidden-grid run returns on the sample canvas, at a zoom that
    never returns with the grid shown. *)
Example hidden_grid_negative_zoom :
  exists calls,
    DrawCanvasBackground 20 (SetShowGrid false sample_designer)
      (mkCanvasEnv (-100) 10 (mkColour 0 0 0) (mkRect 1 1 98 58)
         (fun x => x) (fun y => y)) = Some calls
    /\ length (painted None calls) = 10%nat.
Proof. eexists. split; reflexivity. Qed.

(** X21.  [SetShowGrid] stores the flag and keeps the gradient; it asks
    for a repaint exactly when the flag changes, so a repeated call changes
    nothing. *)
Theorem X21_SetShowGrid_refreshes_on_change :
  forall (show : bool) (pd : ProjectDesigner),
    IsGridShown (SetShowGrid show pd) = show
    /\ m_background (SetShowGrid show pd) = m_background pd
    /\ canvas_refreshes (SetShowGrid show pd)
       = (if Bool.eqb show (IsGridShown pd) then canvas_refreshes pd
          else S (canvas_refreshes pd))
    /\ SetShowGrid show (SetShowGrid show pd) = SetShowGrid show pd
    /\ (IsGridShown pd = show -> SetShowGrid show pd = pd).
Proof.
  intros show [bg shown k]. unfold SetShowGrid, IsGridShown.
  cbn [m_showGrid m_background canvas_refreshes].
  destruct show, shown; cbn; repeat split; try reflexivity;
    discriminate.
Qed.

(* ===================================================================== *)
(** ** Drawing a node *)
(* ===================================================================== *)

(** The calls of a custom node, with the optional parts named. *)
Lemma OnDraw_custom :
  forall base col n,
    GetStyle n = Style_Custom ->
    exists patch icon,
      OnDraw base col n =
      [ Call_SetPen (wxPen_solid (GetColour col) (m_borderThickness n));
        Call_SetBrush (GetBackgroundColour col);
        Call_SetFont (GetFont n);
        Call_SetTextForeground (GetTextColour col);
        Call_DrawRoundedRectangle
          (wxRect.Deflate (GetBounds n) (m_borderThickness n ÷ 2))
          (GetCornerRadius n);
        Call_SetBrush (GetColour col);
        Call_DrawRoundedRectangle
          (rc_set_height (m_divide n)
             (wxRect.Deflate (GetBounds n) (m_borderThickness n ÷ 2)))
          (GetCornerRadius n) ]
      ++ patch
      ++ [ Call_DrawLabel (GetText n)
             (wxRect.Offset (m_rcText n) (wxRect.GetTopLeft (GetBounds n)));
           Call_DrawLabel (GetResult n)
             (wxRect.Offset (m_rcResult n)
                (wxRect.GetTopLeft (GetBounds n))) ]
      ++ icon
      /\ (patch = [] \/ exists r, patch = [Call_DrawRectangle r])
      /\ (icon = [] /\ icon_Ok (GetIcon n) = false
          \/ icon = [Call_DrawIcon (GetIcon n)
                       (wxRect.GetTopLeft
                          (wxRect.Offset (m_rcIcon n)
                             (wxRect.GetTopLeft (GetBounds n))))]
             /\ icon_Ok (GetIcon n) = true).
Proof.
  intros base col n Hs. unfold OnDraw. rewrite Hs, Z.eqb_refl. cbv zeta.
  eexists. eexists. split; [reflexivity|]. split.
  - destruct (m_cornerRadius n >? m_borderThickness n).
    + right. eexists. reflexivity.
    + left. reflexivity.
  - destruct (icon_Ok (GetIcon n)).
    + right. split; [|reflexivity]. do 2 f_equal. apply wxPoint_eq.
      * cbn. lia.
      * cbn. lia.
    + left. split; reflexivity.
Qed.

(** X22.  What is drawn is where hits are reported.  A custom node draws
    two labels, its text and then its result, and its icon when it has one;
    a point of the bounds hits the operation when it lies in the rectangle
    the text was drawn in, else the result when it lies in the rectangle
    the result was drawn in, else the image when it lies in the icon's
    rectangle, whose top-left corner is where the icon was drawn. *)
Theorem X22_drawn_parts_are_hit_regions :
  forall (base : NodeColours -> ProjectNode -> list DCCall)
         (col : NodeColours) (n : ProjectNode),
    GetStyle n = Style_Custom ->
    exists rcText rcResult rcIcon,
      labels (OnDraw base col n)
      = [(GetText n, rcText); (GetResult n, rcResult)]
      /\ wxRect.GetSize rcIcon = wxRect.GetSize (m_rcIcon n)
      /\ (forall icon p, In (Call_DrawIcon icon p) (OnDraw base col n) ->
            icon = GetIcon n /\ p = wxRect.GetTopLeft rcIcon)
      /\ (icon_Ok (GetIcon n) = true ->
          In (Call_DrawIcon (GetIcon n) (wxRect.GetTopLeft rcIcon))
             (OnDraw base col n))
      /\ forall pt,
           HitTest n pt =
           if wxRect.Inside (GetBounds n) pt then
             if wxRect.Inside rcText pt then Hit_Operation
             else if wxRect.Inside rcResult pt then Hit_Result
             else if wxRect.Inside rcIcon pt then Hit_Image
             else Hit_Yes
           else Hit_No.
Proof.
  intros base col n Hs.
  destruct (OnDraw_custom base col n Hs) as (patch & icon & E & Hp & Hi).
  exists (wxRect.Offset (m_rcText n) (wxRect.GetTopLeft (GetBounds n))),
         (wxRect.Offset (m_rcResult n) (wxRect.GetTopLeft (GetBounds n))),
         (wxRect.Offset (m_rcIcon n) (wxRect.GetTopLeft (GetBounds n))).
  rewrite E. split; [|split; [|split; [|split]]].
  - destruct Hp as [->|(r & ->)]; destruct Hi as [[-> _]|[-> _]];
      reflexivity.
  - reflexivity.
  - intros ic p Hin.
    destruct Hp as [->|(r & ->)]; destruct Hi as [[-> _]|[-> _]];
      cbn in Hin;
      repeat (destruct Hin as [Hin|Hin]; [try discriminate|]);
      try contradiction;
      injection Hin as <- <-; split; reflexivity.
  - intros Ok. destruct Hi as [[_ F]|[-> _]]; [congruence|].
    apply in_or_app. right. apply in_or_app. right. apply in_or_app. right.
    left. reflexivity.
  - intros pt. rewrite (HitTest_custom n pt Hs), !Inside_Offset.
    destruct (wxRect.Inside (GetBounds n) pt); reflexivity.
Qed.

Lemma X22_witness_laid_out_node :
  exists rcText rcResult rcIcon,
    labels (OnDraw (fun _ _ => []) sample_colours laid_out_node)
    = [(GetText laid_out_node, rcText); (GetResult laid_out_node, rcResult)]
    /\ wxRect.GetSize rcIcon = wxRect.GetSize (m_rcIcon laid_out_node)
    /\ (forall icon p,
          In (Call_DrawIcon icon p)
             (OnDraw (fun _ _ => []) sample_colours laid_out_node) ->
          icon = GetIcon laid_out_node /\ p = wxRect.GetTopLeft rcIcon)
    /\ (icon_Ok (GetIcon laid_out_node) = true ->
        In (Call_DrawIcon (GetIcon laid_out_node) (wxRect.GetTopLeft rcIcon))
           (OnDraw (fun _ _ => []) sample_colours laid_out_node))
    /\ forall pt,
         HitTest laid_out_node pt =
         if wxRect.Inside (GetBounds laid_out_node) pt then
           if wxRect.Inside rcText pt then Hit_Operation
           else if wxRect.Inside rcResult pt then Hit_Result
           else if wxRect.Inside rcIcon pt then Hit_Image
           else Hit_Yes
         else Hit_No.
Proof.
  exact (X22_drawn_parts_are_hit_regions (fun _ _ => []) sample_colours
           laid_out_node eq_refl).
Defined.

(** Deflating twice by non-negative margins is deflating by their sum. *)
Lemma Deflate_Deflate :
  forall r a b,
    0 <= a -> 0 <= b ->
    wxRect.Deflate (wxRect.Deflate r a) b = wxRect.Deflate r (a + b).
Proof.
  intros r a b Ha Hb. unfold wxRect.Deflate.
  destruct (rc_width r <? 2 * a) eqn:W1;
    destruct (rc_height r <? 2 * a) eqn:H1;
    cbn [rc_x rc_y rc_width rc_height];
    destruct (rc_width r <? 2 * (a + b)) eqn:W2;
    destruct (rc_height r <? 2 * (a + b)) eqn:H2;
    repeat match goal with
           | |- context [?x <? ?y] => destruct (Z.ltb_spec x y)
           end;
    bool_to_Z; try lia; f_equal;
    try (change (0 ÷ 2) with 0);
    Z.quot_rem_to_equations; lia.
Qed.

(** X23.  The corner circles of the perimeter are those of the drawn
    outline.  For a corner radius and border thickness that are not
    negative, the rectangle whose corners [GetPerimeterPoint] takes as the
    centres of the corner circles is the outline [OnDraw] draws, deflated
    by the radius it is drawn with; the circle radius exceeds the drawn one
    by half the border thickness. *)
Theorem X23_perimeter_circles_are_outline_corners :
  forall (base_draw : NodeColours -> ProjectNode -> list DCCall)
         (base : ProjectNode -> wxPoint -> wxPoint -> wxPoint)
         (col : NodeColours) (n : ProjectNode),
    GetStyle n = Style_Custom ->
    0 <= GetCornerRadius n ->
    0 <= GetBorderThickness n ->
    exists outline radius band,
      rounded (OnDraw base_draw col n) = [(outline, radius); (band, radius)]
      /\ band = rc_set_height (m_divide n) outline
      /\ corner_circle_radius n = radius + GetBorderThickness n ÷ 2
      /\ forall inside outside,
           GetPerimeterPoint base n inside outside =
           let pt := base n inside outside in
           let b := wxRect.Deflate outline radius in
           if wxRect.IsEmpty b || (pt_x inside =? pt_x outside)
              || (pt_y inside =? pt_y outside)
           then Some pt
           else match classify_corner b pt with
                | Some c =>
                    GetCornerPoint (corner_centre b c)
                      (radius + GetBorderThickness n ÷ 2) (corner_sign c)
                      inside outside
                | None => Some pt
                end.
Proof.
  intros base_draw base col n Hs Hr Ht.
  destruct (OnDraw_custom base_draw col n Hs)
    as (patch & icon & E & Hp & Hi).
  exists (wxRect.Deflate (GetBounds n) (m_borderThickness n ÷ 2)),
         (GetCornerRadius n),
         (rc_set_height (m_divide n)
            (wxRect.Deflate (GetBounds n) (m_borderThickness n ÷ 2))).
  unfold GetCornerRadius, GetBorderThickness in *.
  split; [|split; [|split]].
  - rewrite E.
    destruct Hp as [->|(r & ->)]; destruct Hi as [[-> _]|[-> _]];
      reflexivity.
  - reflexivity.
  - reflexivity.
  - intros inside outside. rewrite GetPerimeterPoint_dispatch.
    assert (Hh : 0 <= m_borderThickness n ÷ 2)
      by (Z.quot_rem_to_equations; lia).
    rewrite (Deflate_Deflate _ _ _ Hh Hr).
    unfold corner_circle_radius.
    replace (m_borderThickness n ÷ 2 + m_cornerRadius n)
      with (m_cornerRadius n + m_borderThickness n ÷ 2) by lia.
    reflexivity.
Qed.

Lemma X23_witness_laid_out_node :
  exists outline radius band,
    rounded (OnDraw (fun _ _ => []) sample_colours laid_out_node)
    = [(outline, radius); (band, radius)]
    /\ band = rc_set_height (m_divide laid_out_node) outline
    /\ corner_circle_radius laid_out_node
       = radius + GetBorderThickness laid_out_node ÷ 2
    /\ forall inside outside,
         GetPerimeterPoint plain_GetPerimeterPoint laid_out_node
           inside outside =
         let pt := plain_GetPerimeterPoint laid_out_node inside outside in
         let b := wxRect.Deflate outline radius in
         if wxRect.IsEmpty b || (pt_x inside =? pt_x outside)
            || (pt_y inside =? pt_y outside)
         then Some pt
         else match classify_corner b pt with
              | Some c =>
                  GetCornerPoint (corner_centre b c)
                    (radius + GetBorderThickness laid_out_node ÷ 2)
                    (corner_sign c) inside outside
              | None => Some pt
              end.
Proof.
  refine (X23_perimeter_circles_are_outline_corners (fun _ _ => [])
            plain_GetPerimeterPoint sample_colours laid_out_node
            eq_refl _ _); vm_compute; discriminate.
Defined.

(** X24.  The drawing moves with the node.  Moving the bounds of a custom
    node by [d], with its size and its layout kept, moves every rectangle,
    label and icon it draws by [d] and changes nothing else: pens, brushes,
    font, radii, texts and the order of the calls are the same. *)
Theorem X24_OnDraw_moves_with_node :
  forall (base : NodeColours -> ProjectNode -> list DCCall)
         (col : NodeColours) (n : ProjectNode) (d : wxPoint),
    GetStyle n = Style_Custom ->
    OnDraw base col (moved d n) = map (DCCall_Offset d) (OnDraw base col n).
Proof.
  intros base col n d Hs. unfold OnDraw.
  change (GetStyle (moved d n)) with (GetStyle n).
  rewrite Hs, Z.eqb_refl. cbv zeta.
  change (GetBounds (moved d n)) with (wxRect.Offset (GetBounds n) d).
  change (m_borderThickness (moved d n)) with (m_borderThickness n).
  change (m_cornerRadius (moved d n)) with (m_cornerRadius n).
  change (GetCornerRadius (moved d n)) with (GetCornerRadius n).
  change (m_divide (moved d n)) with (m_divide n).
  change (GetFont (moved d n)) with (GetFont n).
  change (GetText (moved d n)) with (GetText n).
  change (GetResult (moved d n)) with (GetResult n).
  change (GetIcon (moved d n)) with (GetIcon n).
  change (m_rcText (moved d n)) with (m_rcText n).
  change (m_rcResult (moved d n)) with (m_rcResult n).
  change (m_rcIcon (moved d n)) with (m_rcIcon n).
  rewrite Deflate_Offset.
  set (o := wxRect.Deflate (GetBounds n) (m_borderThickness n ÷ 2)).
  assert (O2 : forall r, wxRect.Offset r
                           (wxRect.GetTopLeft (wxRect.Offset (GetBounds n) d))
                         = wxRect.Offset
                             (wxRect.Offset r
                                (wxRect.GetTopLeft (GetBounds n))) d).
  { intros r. unfold wxRect.Offset, wxRect.GetTopLeft.
    cbn [rc_x rc_y rc_width rc_height pt_x pt_y]. f_equal; lia. }
  rewrite !O2.
  assert (P : wxRect.GetTopLeft (wxRect.Offset (GetBounds n) d)
              +p wxRect.GetTopLeft (m_rcIcon n)
              = (wxRect.GetTopLeft (GetBounds n)
                 +p wxRect.GetTopLeft (m_rcIcon n)) +p d).
  { apply wxPoint_eq; cbn; lia. }
  rewrite P.
  assert (Patch : forall h c,
             rc_set_height
               (rc_height
                  (rc_set_y (rc_y (rc_set_height h (wxRect.Offset o d)) + c)
                     (rc_set_height h (wxRect.Offset o d))) - c)
               (rc_set_y (rc_y (rc_set_height h (wxRect.Offset o d)) + c)
                  (rc_set_height h (wxRect.Offset o d)))
             = wxRect.Offset
                 (rc_set_height
                    (rc_height
                       (rc_set_y (rc_y (rc_set_height h o) + c)
                          (rc_set_height h o)) - c)
                    (rc_set_y (rc_y (rc_set_height h o) + c)
                       (rc_set_height h o))) d).
  { intros h c. unfold wxRect.Offset, rc_set_height, rc_set_y.
    cbn [rc_x rc_y rc_width rc_height]. f_equal; lia. }
  rewrite Patch.
  destruct (m_cornerRadius n >? m_borderThickness n);
    destruct (icon_Ok (GetIcon n)); reflexivity.
Qed.

Lemma X24_witness_laid_out_node :
  OnDraw (fun _ _ => []) sample_colours (moved (mkPoint 5 (-7)) laid_out_node)
  = map (DCCall_Offset (mkPoint 5 (-7)))
        (OnDraw (fun _ _ => []) sample_colours laid_out_node).
Proof.
  exact (X24_OnDraw_moves_with_node (fun _ _ => []) sample_colours
           laid_out_node (mkPoint 5 (-7)) eq_refl).
Defined.
